(** * pyHydrabus: the PIC18 ICSP protocol handler ([pyHydrabus/pic18.py])

    A shallow embedding of class [PIC18] and of the Python built-ins it
    uses.  The driver talks to its base class [RawWire] (line setters,
    [write_bits], [write], [read], [clocks]); that class is not part of
    the verified source, so its operations are primitive actions that
    are recorded, in order, in the trace every computation returns.
    The bytes the target answers are a parameter [rx]: [rx k] is what the
    [k]-th call of [RawWire.read] returns. *)

From Stdlib Require Import ZArith List String Ascii Strings.Byte Bool Lia.
From Stdlib Require Import Permutation DecimalString HexadecimalString.
Import ListNotations.
Local Open Scope Z_scope.

(** ** Python built-ins *)

Module Py.

Definition bytes := list byte.

(** [len(b)] *)
Definition len (b : bytes) : Z := Z.of_nat (List.length b).

(** [b[lo:hi]] for indices that are not negative (the driver never
    slices with a negative index); out-of-range bounds are clamped. *)
Definition slice (b : bytes) (lo hi : Z) : bytes :=
  firstn (Z.to_nat hi - Z.to_nat lo) (skipn (Z.to_nat lo) b).

(** [b[lo:]] *)
Definition slice_from (b : bytes) (lo : Z) : bytes := skipn (Z.to_nat lo) b.

(** [b[::-1]] *)
Definition reversed (b : bytes) : bytes := rev b.

(** [b * 2] *)
Definition twice (b : bytes) : bytes := b ++ b.

(** [range(start, stop, step)] for a positive [step]. *)
Definition range (start stop step : Z) : list Z :=
  map (fun i => start + Z.of_nat i * step)
      (seq 0 (Z.to_nat ((stop - start + step - 1) / step))).

(** The byte whose value is [z mod 256]. *)
Definition byte_of_Z (z : Z) : byte :=
  byte_of_ascii (ascii_of_N (Z.to_N (z mod 256))).

Definition Z_of_byte (b : byte) : Z := Z.of_N (Byte.to_N b).

(** Python exceptions the driver can raise, directly or through a built-in. *)
Inductive exn :=
| ValueError (msg : string)
| OverflowError
| UnboundLocalError
| StructError.

(** [a.to_bytes(n, byteorder='big')]: [OverflowError] when [a] is negative
    or does not fit in [n] bytes. *)
Definition to_bytes (a : Z) (n : nat) : exn + bytes :=
  if (a <? 0) || (256 ^ Z.of_nat n <=? a) then inl OverflowError
  else inr (map (fun i => byte_of_Z (Z.shiftr a (8 * Z.of_nat i))) (rev (seq 0 n))).

(** [int.from_bytes(b, byteorder="big")] *)
Definition from_bytes (b : bytes) : Z :=
  fold_left (fun acc x => acc * 256 + Z_of_byte x) b 0.

(** [sys.byteorder] of the host, which format ['H'] of [struct] follows. *)
Inductive byteorder := Little | Big.

Definition word16 (bo : byteorder) (b0 b1 : byte) : Z :=
  match bo with
  | Little => Z_of_byte b0 + 256 * Z_of_byte b1
  | Big => 256 * Z_of_byte b0 + Z_of_byte b1
  end.

Fixpoint words16 (bo : byteorder) (b : bytes) : list Z :=
  match b with
  | b0 :: b1 :: rest => word16 bo b0 b1 :: words16 bo rest
  | _ => []
  end.

(** [struct.unpack('H' * n, data)]: [struct.error] unless [data] has
    exactly [2 * n] bytes. *)
Definition unpack_H (bo : byteorder) (n : nat) (data : bytes) : exn + list Z :=
  if (List.length data =? 2 * n)%nat then inr (words16 bo data) else inl StructError.

(** ["{}".format(n)] for a natural number. *)
Definition dec (n : Z) : string :=
  DecimalString.NilZero.string_of_uint (N.to_uint (Z.to_N n)).

Fixpoint zeros (n : nat) : string :=
  match n with O => EmptyString | S k => String "0"%char (zeros k) end.

(** ["{:0wx}".format(n)]: lower-case hexadecimal, padded with zeros on
    the left to [w] characters. *)
Definition hex (w : nat) (n : Z) : string :=
  let digits := HexadecimalString.NilZero.string_of_uint (N.to_hex_uint (Z.to_N n)) in
  (zeros (w - String.length digits) ++ digits)%string.

End Py.

Import Py.

(** ** The bus: state, trace and the monad of driver actions *)

(** Levels last driven on the four lines, and the number of [read]
    calls answered so far. *)
Record Bus := mkBus {
  sda : Z;  (* PGD *)
  clk : Z;  (* PGC *)
  aux0 : Z; (* /MCLR *)
  aux1 : Z; (* PGM *)
  nrx : nat
}.

(** What the driver asks of its environment, in program order. *)
Inductive Event :=
| SetSda (v : Z)
| SetClk (v : Z)
| SetAux (i : nat) (v : Z)
| WriteBits (data : bytes) (n_bits : Z)
| Write (data : bytes)
| Read (n : Z)
| Clocks (n : Z)
| Sleep (secs : Z)
| Print (line : string).

(** A computation returns, raises, or is still looping when the
    iteration bound of a [while] loop is used up. *)
Inductive outcome (A : Type) :=
| Ret (a : A)
| Raise (e : exn)
| Hang.
Arguments Ret {A} a.
Arguments Raise {A} e.
Arguments Hang {A}.

Definition M (A : Type) : Type := Bus -> outcome A * Bus * list Event.

Definition ret {A} (a : A) : M A := fun s => (Ret a, s, []).

Definition raise {A} (e : exn) : M A := fun s => (Raise e, s, []).

Definition hang {A} : M A := fun s => (Hang, s, []).

Definition bind {A B} (m : M A) (f : A -> M B) : M B :=
  fun s =>
    match m s with
    | (Ret a, s1, t1) =>
        match f a s1 with
        | (r, s2, t2) => (r, s2, t1 ++ t2)
        end
    | (Raise e, s1, t1) => (Raise e, s1, t1)
    | (Hang, s1, t1) => (Hang, s1, t1)
    end.

Notation "x <- m ;; k" := (bind m (fun x => k))
  (at level 61, m at next level, right associativity).
Notation "m ;; k" := (bind m (fun _ => k))
  (at level 61, right associativity).

(** A built-in that returns or raises. *)
Definition lift {A} (r : exn + A) : M A :=
  match r with inl e => raise e | inr a => ret a end.

(** [for x in xs: acc = body(x, acc)] *)
Fixpoint for_ {X S} (xs : list X) (acc : S) (body : X -> S -> M S) : M S :=
  match xs with
  | [] => ret acc
  | x :: rest => acc' <- body x acc ;; for_ rest acc' body
  end.

(** [for x in xs: body(x)] *)
Definition for_each {X} (xs : list X) (body : X -> M unit) : M unit :=
  for_ xs tt (fun x _ => body x).

(** The outcome, final bus and trace of a run. *)
Definition result {A} (r : outcome A * Bus * list Event) : outcome A := fst (fst r).
Definition final {A} (r : outcome A * Bus * list Event) : Bus := snd (fst r).
Definition trace {A} (r : outcome A * Bus * list Event) : list Event := snd r.

(** ** The base class [RawWire] *)

Module RawWire.

(** [self.sda = v] *)
Definition set_sda (v : Z) : M unit :=
  fun s => (Ret tt, mkBus v (clk s) (aux0 s) (aux1 s) (nrx s), [SetSda v]).

(** [self.clk = v] *)
Definition set_clk (v : Z) : M unit :=
  fun s => (Ret tt, mkBus (sda s) v (aux0 s) (aux1 s) (nrx s), [SetClk v]).

(** [self.AUX[i].value = v] *)
Definition set_aux (i : nat) (v : Z) : M unit :=
  fun s =>
    (Ret tt,
     match i with
     | O => mkBus (sda s) (clk s) v (aux1 s) (nrx s)
     | S O => mkBus (sda s) (clk s) (aux0 s) v (nrx s)
     | _ => s
     end,
     [SetAux i v]).

(** [write_bits(data, n_bits)] *)
Definition write_bits (data : bytes) (n_bits : Z) : M unit :=
  fun s => (Ret tt, s, [WriteBits data n_bits]).

(** [write(data)] *)
Definition write (data : bytes) : M unit :=
  fun s => (Ret tt, s, [Write data]).

(** [read(n)]: the next answer of the target. *)
Definition read (rx : nat -> bytes) (n : Z) : M bytes :=
  fun s =>
    (Ret (rx (nrx s)),
     mkBus (sda s) (clk s) (aux0 s) (aux1 s) (S (nrx s)),
     [Read n]).

(** [clocks(n)] *)
Definition clocks (n : Z) : M unit :=
  fun s => (Ret tt, s, [Clocks n]).

(** Modelled from the spec: [write_bits] of the absent class [RawWire] is
    the spec's [transmitBits(value, bitCount)], which transmits the low
    [bitCount] bits of [value]; this is the field a [WriteBits] event
    puts on the wire. *)
Definition bits_field (data : bytes) (n_bits : Z) : Z :=
  Z.land (from_bytes data) (Z.ones n_bits).

End RawWire.

(** [time.sleep(secs)] *)
Definition sleep (secs : Z) : M unit :=
  fun s => (Ret tt, s, [Sleep secs]).

(** [print(line)] *)
Definition print (line : string) : M unit :=
  fun s => (Ret tt, s, [Print line]).

(** ** Class [PIC18] *)

Module PIC18.

(** The programming session, read off the two control lines: the target
    is in programming mode while both PGM and /MCLR are high. *)
Inductive Session := Idle | Programming.

Definition session (s : Bus) : Session :=
  if (aux0 s =? 1) && (aux1 s =? 1) then Programming else Idle.

Definition _enter_prog : M unit :=
  RawWire.set_sda 0 ;;
  RawWire.set_clk 0 ;;
  RawWire.set_aux 1 1 ;;
  RawWire.set_aux 0 1.

Definition _exit_prog : M unit :=
  RawWire.set_sda 0 ;;
  RawWire.set_clk 0 ;;
  RawWire.set_aux 0 0 ;;
  RawWire.set_aux 1 0.

Definition send_cmd (cmd payload : bytes) : M unit :=
  RawWire.write_bits cmd 4 ;;
  if len payload mod 2 =? 0 then
    RawWire.write (slice payload 1 2) ;;
    RawWire.write (slice payload 0 1)
  else
    RawWire.write (slice payload 0 1).

Definition nop (repeat : Z) : M unit :=
  for_each (range 0 repeat 1) (fun _ => send_cmd [x00] [x00; x00]).

Definition set_eeaddr (address : Z) : M unit :=
  EEADDR <- lift (to_bytes address 2) ;;
  send_cmd [x00] ([x0e] ++ slice EEADDR 0 1) ;;
  send_cmd [x00] [x6e; xaa] ;;
  send_cmd [x00] ([x0e] ++ slice EEADDR 1 2) ;;
  send_cmd [x00] [x6e; xa9].

Definition set_tblptr (address : Z) : M unit :=
  TBLPTR <- lift (to_bytes address 3) ;;
  send_cmd [x00] ([x0e] ++ slice TBLPTR 0 1) ;;
  send_cmd [x00] [x6e; xf8] ;;
  send_cmd [x00] ([x0e] ++ slice TBLPTR 1 2) ;;
  send_cmd [x00] [x6e; xf7] ;;
  send_cmd [x00] ([x0e] ++ slice TBLPTR 2 3) ;;
  send_cmd [x00] [x6e; xf6].

Section Driver.

(** [rx k]: the bytes the [k]-th [RawWire.read] call returns. *)
Variable rx : nat -> bytes.

Definition poll_wr : M Z :=
  send_cmd [x00] [x50; xa6] ;;
  send_cmd [x00] [x6e; xf5] ;;
  nop 1 ;;
  send_cmd [x02] [x00] ;;
  b <- RawWire.read rx 1 ;;
  ret (Z.land (Z.shiftr (from_bytes b) 1) 1).

(** [while self.poll_wr(): continue], at most [fuel] polls. *)
Fixpoint wait_wr (fuel : nat) : M unit :=
  match fuel with
  | O => hang
  | S k => busy <- poll_wr ;; if busy =? 0 then ret tt else wait_wr k
  end.

Definition read (addr length : Z) (eeprom : bool) : M bytes :=
  if length =? 0 then raise (ValueError "Length must be at least one") else
  _enter_prog ;;
  data <-
    (if eeprom then
       send_cmd [x00] [x9e; xa6] ;;
       send_cmd [x00] [x9c; xa6] ;;
       for_ (range 0 length 1) [] (fun offset data =>
         set_eeaddr (addr + offset) ;;
         send_cmd [x00] [x80; xa6] ;;
         send_cmd [x00] [x6e; xf5] ;;
         send_cmd [x00] [x50; xa8] ;;
         nop 1 ;;
         b <- RawWire.read rx 1 ;;
         ret (data ++ b))
     else
       set_tblptr addr ;;
       for_ (range 0 length 1) [] (fun _ data =>
         send_cmd [x09] [x00] ;;
         b <- RawWire.read rx 1 ;;
         ret (data ++ b))) ;;
  _exit_prog ;;
  ret data.

(** [fuel] bounds each run of the completion poll loop. *)
Definition write (fuel : nat) (addr : Z) (data : bytes) (eeprom erase : bool)
  : M unit :=
  let length := len data in
  if length <? 2 then raise (ValueError "Data should be at least two byte") else
  if length mod 2 =? 1 then
    raise (ValueError "Data should be a multiple of two bytes") else
  _enter_prog ;;
  (if eeprom then
     send_cmd [x00] [x9e; xa6] ;;
     send_cmd [x00] [x9c; xa6] ;;
     set_eeaddr addr ;;
     send_cmd [x00] [x84; xa6] ;;
     for_each (range 0 length 1) (fun d =>
       send_cmd [x0e] (slice data d (d + 1)) ;;
       send_cmd [x00] [x84; xa6] ;;
       nop 2 ;;
       wait_wr fuel)
   else
     send_cmd [x00] [x8e; xa6] ;;
     send_cmd [x00] [x9c; xa6] ;;
     set_tblptr addr ;;
     send_cmd [x00] [x84; xa6] ;;
     send_cmd [x00] [x88; xa6] ;;
     (if erase then
        send_cmd [x00] [x88; xa6] ;;
        send_cmd [x00] [x82; xa6] ;;
        nop 2 ;;
        wait_wr fuel
      else ret tt) ;;
     (if length =? 2 then
        send_cmd [x0f] data
      else
        (* the loop variable [d] outlives the loop *)
        last_d <- for_ (range 0 (length - 2) 2) None (fun d _ =>
          send_cmd [x0d] (reversed (slice data d (d + 2))) ;;
          ret (Some d)) ;;
        match last_d with
        | Some d => send_cmd [x0f] (reversed (slice_from data (d + 2)))
        | None => raise UnboundLocalError
        end) ;;
     RawWire.set_sda 0 ;;
     RawWire.clocks 3 ;;
     RawWire.set_clk 1 ;;
     sleep 1) ;;
  RawWire.set_clk 0 ;;
  nop 2 ;;
  send_cmd [x00] [x94; xa6] ;;
  _exit_prog.

Definition erase_panel (panel : bytes) : M unit :=
  _enter_prog ;;
  set_tblptr 0x3c0005 ;;
  send_cmd [x0c] (twice (slice panel 0 1)) ;;
  set_tblptr 0x3c0004 ;;
  send_cmd [x0c] (twice (slice panel 1 2)) ;;
  send_cmd [x00] [x00; x00] ;;
  send_cmd [x00] [x00; x00] ;;
  _exit_prog.

(** [sys.byteorder] of the machine the driver runs on. *)
Variable host : byteorder.

(** [for i in values: print(label + str(c) + " :" + " {:0wx}".format(i)); c += 1],
    starting from [c = 1]. *)
Definition report (label : string) (w : nat) (values : list Z) : M unit :=
  for_ values 1 (fun i c =>
    print (label ++ dec c ++ " :" ++ " " ++ hex w i)%string ;;
    ret (c + 1)) ;;
  ret tt.

Definition get_cfg_ID (address : option Z) : M unit :=
  _enter_prog ;;
  let address := match address with None => 0x300000 | Some a => a end in
  set_tblptr address ;;
  data <- for_ (range 0 14 1) [] (fun _ data =>
    send_cmd [x09] [x00] ;;
    b <- RawWire.read rx 1 ;;
    ret (data ++ b)) ;;
  _exit_prog ;;
  CONFIG <- lift (unpack_H host 7 data) ;;
  report "CONFIG" 4 CONFIG.

Definition get_loc_ID (address : option Z) : M unit :=
  _enter_prog ;;
  let address := match address with None => 0x200000 | Some a => a end in
  data <- for_ (range address (address + 8) 1) [] (fun _ data =>
    set_tblptr address ;;
    send_cmd [x08] [x00] ;;
    b <- RawWire.read rx 1 ;;
    ret (data ++ b)) ;;
  _exit_prog ;;
  ID <- lift (unpack_H host 4 data) ;;
  report "LOC_ID " 4 ID.

Definition get_dev_ID (address : option Z) : M unit :=
  _enter_prog ;;
  let address := match address with None => 0x3FFFFE | Some a => a end in
  set_tblptr address ;;
  data <- for_ (range 0 2 1) [] (fun _ data =>
    send_cmd [x09] [x00] ;;
    b <- RawWire.read rx 1 ;;
    ret (data ++ b)) ;;
  _exit_prog ;;
  report "DEV_ID " 2 (map Z_of_byte data).

(** The public operations and their arguments. *)
Inductive Call :=
| CallRead (addr length : Z) (eeprom : bool)
| CallWrite (addr : Z) (data : bytes) (eeprom erase : bool)
| CallErasePanel (panel : bytes)
| CallGetCfgID (address : option Z)
| CallGetLocID (address : option Z)
| CallGetDevID (address : option Z).

(** One call of a public operation; [None] is Python's [None]. *)
Definition call (fuel : nat) (c : Call) : M (option bytes) :=
  match c with
  | CallRead addr length eeprom => data <- read addr length eeprom ;; ret (Some data)
  | CallWrite addr data eeprom erase => write fuel addr data eeprom erase ;; ret None
  | CallErasePanel panel => erase_panel panel ;; ret None
  | CallGetCfgID address => get_cfg_ID address ;; ret None
  | CallGetLocID address => get_loc_ID address ;; ret None
  | CallGetDevID address => get_dev_ID address ;; ret None
  end.

End Driver.

(** The bus before the first call: all lines low, nothing read yet. *)
Definition bus0 : Bus := mkBus 0 0 0 0 0.

(** ** Wire sequences *)

(** What [send_cmd cmd payload] puts on the wire (it neither reads the
    bus state nor changes it, see [send_cmd_run]). *)
Definition encoded (cmd payload : bytes) : list Event :=
  trace (send_cmd cmd payload bus0).

(** A core instruction (opcode 0) with instruction word [b0 b1]. *)
Definition core (b0 b1 : byte) : list Event := encoded [x00] [b0; b1].

Definition enter_seq : list Event :=
  [SetSda 0; SetClk 0; SetAux 1 1; SetAux 0 1].

Definition exit_seq : list Event :=
  [SetSda 0; SetClk 0; SetAux 0 0; SetAux 1 0].

(** MOVLW/MOVWF pairs that load TBLPTRU, TBLPTRH and TBLPTRL. *)
Definition tblptr_seq (a : Z) : list Event :=
  core x0e (byte_of_Z (Z.shiftr a 16)) ++ core x6e xf8 ++
  core x0e (byte_of_Z (Z.shiftr a 8)) ++ core x6e xf7 ++
  core x0e (byte_of_Z a) ++ core x6e xf6.

(** MOVLW/MOVWF pairs that load EEADRH and EEADR. *)
Definition eeaddr_seq (a : Z) : list Event :=
  core x0e (byte_of_Z (Z.shiftr a 8)) ++ core x6e xaa ++
  core x0e (byte_of_Z a) ++ core x6e xa9.

(** The bus after [k] more answers were consumed. *)
Definition advance (k : nat) (s : Bus) : Bus :=
  mkBus (sda s) (clk s) (aux0 s) (aux1 s) (nrx s + k).

(** The bus when an operation has released the target. *)
Definition released (s : Bus) : Bus := mkBus 0 0 0 0 (nrx s).

Definition is_print (e : Event) : Prop := exists line, e = Print line.

Definition is_read (e : Event) : bool :=
  match e with Read _ => true | _ => false end.

Fixpoint bytes_eqb (a b : bytes) : bool :=
  match a, b with
  | [], [] => true
  | x :: a', y :: b' => Byte.eqb x y && bytes_eqb a' b'
  | _, _ => false
  end.

(** Three consecutive events that are a no-op on the wire: opcode 0 with
    instruction word 00 00. *)
Definition nop_at (e1 e2 e3 : Event) : bool :=
  match e1, e2, e3 with
  | WriteBits c n, Write p, Write q =>
      bytes_eqb c [x00] && (n =? 4) && bytes_eqb p [x00] && bytes_eqb q [x00]
  | _, _, _ => false
  end.

(** Number of no-op instructions in a trace. *)
Fixpoint count_nops (t : list Event) : nat :=
  match t with
  | [] => O
  | e1 :: rest =>
      (match rest with
       | e2 :: e3 :: _ => if nop_at e1 e2 e3 then 1 else 0
       | _ => 0
       end + count_nops rest)%nat
  end.

(** The EEPROM read as the specification words it: per byte, set the
    EEPROM address, BSF EECON1,RD (80 A6), MOVF EEDATA,W (50 A8), MOVWF
    TABLAT (6E F5), two no-ops, one byte read back. *)
Definition spec_eeprom_read_step (a : Z) : list Event :=
  eeaddr_seq a ++ core x80 xa6 ++ core x50 xa8 ++ core x6e xf5 ++
  core x00 x00 ++ core x00 x00 ++ [Read 1].

Definition spec_eeprom_read_trace (addr : Z) (n : nat) : list Event :=
  enter_seq ++ core x9e xa6 ++ core x9c xa6 ++
  flat_map (fun off => spec_eeprom_read_step (addr + off)) (map Z.of_nat (seq 0 n)) ++
  exit_seq.

(** Program-memory write: what precedes and what follows the payload. *)
Definition pm_setup (addr : Z) : list Event :=
  core x8e xa6 ++ core x9c xa6 ++ tblptr_seq addr ++
  core x84 xa6 ++ core x88 xa6.

Definition pm_finish : list Event :=
  [SetSda 0; Clocks 3; SetClk 1; Sleep 1; SetClk 0] ++
  core x00 x00 ++ core x00 x00 ++ core x94 xa6 ++ exit_seq.

Definition not_aux (e : Event) : Prop := forall i v, e <> SetAux i v.

(** The session discipline of one public call started on bus [s]:
    - a call that returns, or raises [struct.error], has run the entry
      sequence first and the exit sequence after it, followed by printing
      only, and leaves the session [Idle];
    - a call that raises [ValueError] has done nothing at all;
    - a call that raises anything else, or is still polling, has run the
      entry sequence, has not driven a control line since, and leaves the
      session in [Programming]. *)
Definition discipline {A} (s : Bus) (run : outcome A * Bus * list Event) : Prop :=
  match run with
  | (Ret _, s', t) | (Raise StructError, s', t) =>
      session s' = Idle /\
      exists mid out, t = enter_seq ++ mid ++ exit_seq ++ out /\ Forall is_print out
  | (Raise (ValueError _), s', t) => s' = s /\ t = []
  | (_, s', t) =>
      session s' = Programming /\
      exists mid, t = enter_seq ++ mid /\ Forall not_aux mid
  end.

(** Code that runs between entry and exit: it leaves the control lines
    alone and raises neither [ValueError] nor [struct.error]. *)
Definition inside_exn {A} (r : outcome A) : Prop :=
  match r with
  | Raise (ValueError _) | Raise StructError => False
  | _ => True
  end.

Definition inside {A} (m : M A) : Prop :=
  forall s r s' t, m s = (r, s', t) ->
    aux0 s' = aux0 s /\ aux1 s' = aux1 s /\ Forall not_aux t /\ inside_exn r.

(** Code that runs after the exit sequence: it prints, and returns or
    raises [struct.error]. *)
Definition after_exn {A} (r : outcome A) : Prop :=
  match r with
  | Ret _ | Raise StructError => True
  | _ => False
  end.

Definition after {A} (m : M A) : Prop :=
  forall s r s' t, m s = (r, s', t) ->
    s' = s /\ Forall is_print t /\ after_exn r.

(** Code that starts in programming mode and runs through the exit
    sequence. *)
Definition closing_post {A} (r : outcome A) (s' : Bus) (t : list Event) : Prop :=
  match r with
  | Ret _ | Raise StructError =>
      session s' = Idle /\
      exists mid out, t = mid ++ exit_seq ++ out /\ Forall is_print out
  | Raise (ValueError _) => False
  | _ => session s' = Programming /\ Forall not_aux t
  end.

Definition closing {A} (m : M A) : Prop :=
  forall s r s' t, session s = Programming -> m s = (r, s', t) ->
    closing_post r s' t.

(** The payload bytes a trace puts on the wire with [RawWire.write], in
    order (opcode fields are not payload). *)
Definition wire_bytes (t : list Event) : bytes :=
  flat_map (fun e => match e with Write d => d | _ => [] end) t.

(** What one call of [poll_wr] sends before it reads: MOVF EECON1,W;
    MOVWF TABLAT; a no-op; the table-latch readout 0x02. *)
Definition poll_seq : list Event :=
  core x50 xa6 ++ core x6e xf5 ++ core x00 x00 ++ encoded [x02] [x00] ++
  [Read 1].

(** The write-in-progress flag in an answer: bit 1 of its value. *)
Definition busy (answer : bytes) : bool := Z.testbit (from_bytes answer) 1.

(** The bulk-erase block of a program-memory write with [erase=True]. *)
Definition erase_block : list Event :=
  core x88 xa6 ++ core x82 xa6 ++ core x00 x00 ++ core x00 x00 ++ poll_seq.

(** The payload instructions of a program-memory write. *)
Definition pm_payload (data : bytes) : list Event :=
  if len data =? 2 then encoded [x0f] data
  else
    flat_map (fun d => encoded [x0d] (reversed (slice data d (d + 2))))
             (range 0 (len data - 2) 2) ++
    encoded [x0f] (reversed (slice_from data (len data - 2))).

(** The framing every transport request of the driver keeps: opcode
    fields are one byte sent as 4 bits, a payload write carries at most
    one byte, a read asks for one byte. *)
Definition framed (e : Event) : Prop :=
  match e with
  | WriteBits c n => List.length c = 1%nat /\ n = 4
  | Write d => (List.length d <= 1)%nat
  | Read n => n = 1
  | _ => True
  end.

Definition no_read (e : Event) : Prop := forall n, e <> Read n.

(** Every event of every run of [m] satisfies [P]. *)
Definition emits {A} (P : Event -> Prop) (m : M A) : Prop :=
  forall s r s' t, m s = (r, s', t) -> Forall P t.

(** What one round of the EEPROM read loop sends, for EEPROM address [a]. *)
Definition ee_read_step (a : Z) : list Event :=
  eeaddr_seq a ++ core x80 xa6 ++ core x6e xf5 ++ core x50 xa8 ++
  core x00 x00 ++ [Read 1].

(** What one round of the EEPROM write loop sends for data byte [b]:
    the byte with opcode 0x0E, BSF EECON1,WREN, two no-ops, one poll. *)
Definition ee_write_step (b : byte) : list Event :=
  encoded [x0e] [b] ++ core x84 xa6 ++ core x00 x00 ++ core x00 x00 ++
  poll_seq.

(** The payload instructions of a program-memory write as events: data
    of two bytes goes out with 0x0F, byte 1 before byte 0; longer data
    goes out in chunks of two, each chunk with its first byte first, all
    but the last chunk with 0x0D and the last with 0x0F. *)
Definition wire_pm_payload (data : bytes) : list Event :=
  if len data =? 2 then
    [WriteBits [x0f] 4; Write (slice data 1 2); Write (slice data 0 1)]
  else
    flat_map (fun d =>
      [WriteBits [x0d] 4;
       Write (slice data d (d + 1)); Write (slice data (d + 1) (d + 2))])
      (range 0 (len data - 2) 2) ++
    [WriteBits [x0f] 4;
     Write (slice data (len data - 2) (len data - 1));
     Write (slice data (len data - 1) (len data))].

(** Example targets: one that is busy for its first two answers, one
    that is always busy, one that is never busy, one that does not
    answer. *)
Definition rx_busy_twice : nat -> bytes :=
  fun k => if (k <? 2)%nat then [x02] else [x00].

Definition rx_busy : nat -> bytes := fun _ => [x02].

Definition rx_ready : nat -> bytes := fun _ => [x00].

Definition rx_silent : nat -> bytes := fun _ => [].

(** Example target: the [k]-th answer is the single byte [k mod 256]. *)
Definition ex_rx : nat -> bytes := fun k => [byte_of_Z (Z.of_nat k)].

(** ** Running the monad *)

Lemma bind_eq {A B} (m : M A) (f : A -> M B) s a s1 t1 r s2 t2 :
  m s = (Ret a, s1, t1) -> f a s1 = (r, s2, t2) ->
  bind m f s = (r, s2, t1 ++ t2).
Proof. intros Hm Hf. unfold bind. rewrite Hm, Hf. reflexivity. Qed.

Lemma with_trace {A} (m : M A) s r s1 t t' :
  m s = (r, s1, t) -> t = t' -> m s = (r, s1, t').
Proof. intros H <-. exact H. Qed.

(** Run the first action of a sequence (only when the goal is,
    syntactically, a sequence). *)
Ltac run_bind :=
  lazymatch goal with
  | |- bind _ _ _ = _ => eapply bind_eq
  end.

Lemma bind_raise {A B} (m : M A) (f : A -> M B) s e s1 t1 :
  m s = (Raise e, s1, t1) -> bind m f s = (Raise e, s1, t1).
Proof. intros Hm. unfold bind. rewrite Hm. reflexivity. Qed.

Lemma send_cmd_run cmd payload s :
  send_cmd cmd payload s = (Ret tt, s, encoded cmd payload).
Proof.
  unfold encoded, send_cmd, bind, RawWire.write_bits, RawWire.write, trace.
  destruct (len payload mod 2 =? 0); reflexivity.
Qed.

Lemma enter_run s :
  _enter_prog s = (Ret tt, mkBus 0 0 1 1 (nrx s), enter_seq).
Proof. reflexivity. Qed.

Lemma exit_run s : _exit_prog s = (Ret tt, released s, exit_seq).
Proof. reflexivity. Qed.

Lemma with_result {A} (m : M A) s r s1 t r' s1' t' :
  m s = (r, s1, t) -> r = r' -> s1 = s1' -> t = t' -> m s = (r', s1', t').
Proof. intros H <- <- <-. exact H. Qed.

Lemma to_bytes_guard a n :
  0 <= a < 256 ^ Z.of_nat n -> (a <? 0) || (256 ^ Z.of_nat n <=? a) = false.
Proof.
  intros [Hlo Hhi]. apply orb_false_iff. split.
  - apply Z.ltb_ge. exact Hlo.
  - apply Z.leb_gt. exact Hhi.
Qed.

Lemma set_tblptr_run a s :
  0 <= a < 2 ^ 24 -> set_tblptr a s = (Ret tt, s, tblptr_seq a).
Proof.
  intros H. unfold set_tblptr, to_bytes.
  rewrite to_bytes_guard by (change (256 ^ Z.of_nat 3) with (2 ^ 24); exact H).
  cbn [lift seq rev app map Z.of_nat Pos.of_succ_nat Pos.succ Z.mul Pos.mul].
  rewrite Z.shiftr_0_r.
  eapply with_trace.
  - repeat (run_bind; [first [ apply send_cmd_run | reflexivity ] | ]).
    apply send_cmd_run.
  - reflexivity.
Qed.

Lemma set_eeaddr_run a s :
  0 <= a < 2 ^ 16 -> set_eeaddr a s = (Ret tt, s, eeaddr_seq a).
Proof.
  intros H. unfold set_eeaddr, to_bytes.
  rewrite to_bytes_guard by (change (256 ^ Z.of_nat 2) with (2 ^ 16); exact H).
  cbn [lift seq rev app map Z.of_nat Pos.of_succ_nat Pos.succ Z.mul Pos.mul].
  rewrite Z.shiftr_0_r.
  eapply with_trace.
  - repeat (run_bind; [first [ apply send_cmd_run | reflexivity ] | ]).
    apply send_cmd_run.
  - reflexivity.
Qed.

Lemma set_tblptr_overflow a s :
  2 ^ 24 <= a -> set_tblptr a s = (Raise OverflowError, s, []).
Proof.
  intros H. unfold set_tblptr, to_bytes.
  replace (256 ^ Z.of_nat 3 <=? a) with true
    by (symmetry; apply Z.leb_le; exact H).
  rewrite orb_true_r. reflexivity.
Qed.

Lemma nop_1_run s : nop 1 s = (Ret tt, s, core x00 x00).
Proof. reflexivity. Qed.

Lemma nop_2_run s : nop 2 s = (Ret tt, s, core x00 x00 ++ core x00 x00).
Proof. reflexivity. Qed.

Lemma advance_0 s : advance 0 s = s.
Proof. destruct s. unfold advance. cbn. rewrite Nat.add_0_r. reflexivity. Qed.

Lemma range_from_0 n : range 0 n 1 = map Z.of_nat (seq 0 (Z.to_nat n)).
Proof.
  unfold range. rewrite Z.div_1_r.
  replace (n - 0 + 1 - 1) with n by lia.
  apply map_ext. intros i. lia.
Qed.

(** A loop whose every iteration sends [pre x], reads one answer and
    appends it to the accumulated data. *)
Lemma for_reads {X} (rx : nat -> bytes) (P : X -> Prop)
    (pre : X -> list Event) (body : X -> bytes -> M bytes) :
  (forall x acc s, P x ->
     body x acc s =
       (Ret (acc ++ rx (nrx s)),
        mkBus (sda s) (clk s) (aux0 s) (aux1 s) (S (nrx s)),
        pre x ++ [Read 1])) ->
  forall xs acc s, Forall P xs ->
    for_ xs acc body s =
      (Ret (acc ++ List.concat (map rx (seq (nrx s) (List.length xs)))),
       advance (List.length xs) s,
       flat_map (fun x => pre x ++ [Read 1]) xs).
Proof.
  intros Hbody xs. induction xs as [| x xs IH]; intros acc s HP.
  - cbn. rewrite app_nil_r, advance_0. reflexivity.
  - inversion HP as [| ? ? Hx Hxs]; subst.
    cbn [for_ List.length seq map List.concat flat_map].
    eapply with_result.
    + eapply bind_eq; [apply Hbody; exact Hx | apply IH; exact Hxs].
    + cbn [nrx]. rewrite app_assoc. reflexivity.
    + unfold advance. cbn. f_equal. lia.
    + reflexivity.
Qed.

Lemma flat_map_const {X Y} (l : list Y) (xs : list X) :
  flat_map (fun _ => l) xs = List.concat (repeat l (List.length xs)).
Proof.
  induction xs as [| x xs IH]; cbn; [reflexivity | now rewrite IH].
Qed.

Lemma concat_singletons (rx : nat -> bytes) :
  (forall k, List.length (rx k) = 1%nat) ->
  forall k m,
    List.concat (map rx (seq m k)) = map (fun i => hd x00 (rx i)) (seq m k).
Proof.
  intros Hone k. induction k as [| k IH]; intros m; cbn [seq map List.concat].
  - reflexivity.
  - rewrite IH. specialize (Hone m).
    destruct (rx m) as [| b [| b' r]]; cbn in Hone; try discriminate.
    reflexivity.
Qed.

(** ** The claims *)

(** C1. [send_cmd cmd payload] first sends [cmd] as a 4-bit field, whose
    value is the low 4 bits of [cmd]; then, for a payload of even length,
    payload byte 1 followed by payload byte 0, and for a payload of odd
    length payload byte 0 alone; nothing else is sent, nothing is read and
    the bus state is unchanged.  The three payload sizes of an instruction
    are spelled out. *)
Theorem send_cmd_wire_order : forall (cmd payload : bytes) (s : Bus),
  send_cmd cmd payload s =
    (Ret tt, s,
     WriteBits cmd 4 ::
     (if Z.even (len payload)
      then [Write (slice payload 1 2); Write (slice payload 0 1)]
      else [Write (slice payload 0 1)]))
  /\ RawWire.bits_field cmd 4 = from_bytes cmd mod 16
  /\ (forall b0 b1, encoded cmd [b0; b1] = [WriteBits cmd 4; Write [b1]; Write [b0]])
  /\ (forall b0, encoded cmd [b0] = [WriteBits cmd 4; Write [b0]])
  /\ encoded cmd [] = [WriteBits cmd 4; Write []; Write []].
Proof.
  intros cmd payload s. repeat split.
  - unfold send_cmd, bind, RawWire.write_bits, RawWire.write.
    rewrite Zmod_even. destruct (Z.even (len payload)); reflexivity.
  - unfold RawWire.bits_field. rewrite Z.land_ones by lia. reflexivity.
Qed.

(** C6. [read(addr, 0, eeprom)] raises [ValueError] at once: the bus is
    untouched and the trace is empty, so neither the entry sequence nor
    any other transport call happens. *)
Theorem read_zero_length_rejected :
  forall (rx : nat -> bytes) (addr : Z) (eeprom : bool) (s : Bus),
    read rx addr 0 eeprom s =
      (Raise (ValueError "Length must be at least one"), s, []).
Proof. intros. reflexivity. Qed.

(** C5. [write] with fewer than two bytes or an odd number of bytes raises
    [ValueError] before any transport activity, whatever [addr], [eeprom]
    and [erase] are: the bus is untouched and the trace is empty. *)
Theorem write_rejects_short_or_odd :
  forall (rx : nat -> bytes) (fuel : nat) (addr : Z) (data : bytes)
         (eeprom erase : bool) (s : Bus),
    len data < 2 \/ Z.odd (len data) = true ->
    exists msg,
      write rx fuel addr data eeprom erase s = (Raise (ValueError msg), s, []).
Proof.
  intros rx fuel addr data eeprom erase s H. unfold write.
  destruct (Z.ltb_spec (len data) 2) as [Hlt | Hge].
  - eexists. reflexivity.
  - destruct H as [H | H]; [lia |].
    rewrite Zmod_odd, H. eexists. reflexivity.
Qed.

Lemma write_rejects_short_or_odd_witness :
  (len [x41; x42; x43] < 2 \/ Z.odd (len [x41; x42; x43]) = true) /\
  exists msg,
    write ex_rx 1 0x800 [x41; x42; x43] false true bus0 =
      (Raise (ValueError msg), bus0, []).
Proof.
  split.
  - right. reflexivity.
  - apply (write_rejects_short_or_odd ex_rx 1 0x800 [x41; x42; x43] false true bus0).
    right. reflexivity.
Defined.

(** [read] on program memory for a 24-bit address, in terms of what
    [send_cmd] sends. *)
Lemma read_program_memory_run :
  forall (rx : nat -> bytes) (addr length : Z) (s : Bus),
    0 <= addr < 2 ^ 24 -> 1 <= length ->
    let n := Z.to_nat length in
    let data := List.concat (map rx (seq (nrx s) n)) in
    read rx addr length false s =
      (Ret data,
       mkBus 0 0 0 0 (nrx s + n),
       enter_seq ++ tblptr_seq addr ++
       List.concat (repeat (encoded [x09] [x00] ++ [Read 1]) n) ++
       exit_seq)
    /\ encoded [x09] [x00] = [WriteBits [x09] 4; Write [x00]]
    /\ ((forall k, List.length (rx k) = 1%nat) -> len data = length).
Proof.
  intros rx addr length s Haddr Hlen n data. repeat split.
  - unfold read. destruct (Z.eqb_spec length 0) as [E | _]; [lia |].
    rewrite range_from_0. fold n.
    eapply with_result.
    + run_bind; [apply enter_run |].
      run_bind.
      * run_bind; [apply set_tblptr_run; exact Haddr |].
        apply (for_reads rx (fun _ => True) (fun _ => encoded [x09] [x00])).
        -- intros x acc s0 _.
           run_bind; [apply send_cmd_run | reflexivity].
        -- apply Forall_forall. intros; exact I.
      * run_bind; [apply exit_run | reflexivity].
    + rewrite length_map, length_seq. reflexivity.
    + rewrite length_map, length_seq. reflexivity.
    + rewrite flat_map_const, length_map, length_seq, app_nil_r.
      reflexivity.
  - intros Hone. unfold len, data.
    assert (Hc : forall m k, List.length (List.concat (map rx (seq m k))) = k).
    { intros m k. revert m. induction k as [| k IH]; intros m; cbn.
      - reflexivity.
      - rewrite length_app, Hone, IH. reflexivity. }
    rewrite Hc. unfold n. lia.
Qed.

(** [erase_panel] on a 2-byte identifier, in terms of what [send_cmd]
    sends. *)
Lemma erase_panel_run : forall (p0 p1 : byte) (s : Bus),
  erase_panel [p0; p1] s =
    (Ret tt, released s,
     enter_seq ++
     tblptr_seq 0x3c0005 ++ encoded [x0c] [p0; p0] ++
     tblptr_seq 0x3c0004 ++ encoded [x0c] [p1; p1] ++
     core x00 x00 ++ core x00 x00 ++
     exit_seq)
  /\ existsb is_read (trace (erase_panel [p0; p1] s)) = false
  /\ tblptr_seq 0x3c0005 =
       core x0e x3c ++ core x6e xf8 ++ core x0e x00 ++ core x6e xf7 ++
       core x0e x05 ++ core x6e xf6
  /\ tblptr_seq 0x3c0004 =
       core x0e x3c ++ core x6e xf8 ++ core x0e x00 ++ core x6e xf7 ++
       core x0e x04 ++ core x6e xf6.
Proof. intros p0 p1 s. repeat split. Qed.

(** C10. On the EEPROM path of [write] the [erase] argument is never
    consulted: with [erase=True] and with [erase=False] the call has the
    same outcome, the same final bus and the same trace, for every bound
    on the poll loop. *)
Theorem write_eeprom_ignores_erase :
  forall (rx : nat -> bytes) (fuel : nat) (addr : Z) (data : bytes) (s : Bus),
    write rx fuel addr data true true s = write rx fuel addr data true false s.
Proof. intros. reflexivity. Qed.

(** C4, as stated, fails: for [read(0, 1, eeprom=True)] the trace is not
    the one the claim describes; the driver issues one no-op per byte
    where the claim has two. *)
Lemma read_eeprom_spec_sequence_fails :
  trace (read ex_rx 0 1 true bus0) <> spec_eeprom_read_trace 0 1
  /\ count_nops (trace (read ex_rx 0 1 true bus0)) = 1%nat
  /\ count_nops (spec_eeprom_read_trace 0 1) = 2%nat.
Proof.
  split; [| split; reflexivity].
  intros H. apply (f_equal (@List.length Event)) in H.
  vm_compute in H. discriminate H.
Qed.

(** The EEPROM path of [read] for addresses within 16 bits, in terms of
    what [send_cmd] sends. *)
Lemma read_eeprom_run :
  forall (rx : nat -> bytes) (addr length : Z) (s : Bus),
    0 <= addr -> addr + length <= 2 ^ 16 -> 1 <= length ->
    let n := Z.to_nat length in
    read rx addr length true s =
      (Ret (List.concat (map rx (seq (nrx s) n))),
       mkBus 0 0 0 0 (nrx s + n),
       enter_seq ++ core x9e xa6 ++ core x9c xa6 ++
       flat_map (fun offset => ee_read_step (addr + offset))
                (map Z.of_nat (seq 0 n)) ++
       exit_seq).
Proof.
  intros rx addr length s Hlo Hhi Hlen n.
  unfold read. destruct (Z.eqb_spec length 0) as [E | _]; [lia |].
  rewrite range_from_0. fold n.
  eapply with_result.
  - run_bind; [apply enter_run |].
    run_bind.
    + run_bind; [apply send_cmd_run |].
      run_bind; [apply send_cmd_run |].
      apply (for_reads rx (fun x => 0 <= addr + x < 2 ^ 16)
               (fun x => eeaddr_seq (addr + x) ++ core x80 xa6 ++
                         core x6e xf5 ++ core x50 xa8 ++ core x00 x00)).
      * intros x acc s0 Hx.
        eapply with_trace.
        -- run_bind; [apply set_eeaddr_run; exact Hx |].
           repeat (run_bind; [first [apply send_cmd_run | apply nop_1_run] |]).
           reflexivity.
        -- reflexivity.
      * apply Forall_forall. intros x Hin.
        apply in_map_iff in Hin. destruct Hin as (i & <- & Hi).
        apply in_seq in Hi. unfold n in Hi. lia.
    + run_bind; [apply exit_run | reflexivity].
  - rewrite length_map, length_seq. reflexivity.
  - rewrite length_map, length_seq. reflexivity.
  - rewrite app_nil_r.
    change (encoded [x00] [x9e; xa6]) with (core x9e xa6).
    change (encoded [x00] [x9c; xa6]) with (core x9c xa6).
    unfold ee_read_step. rewrite <- !app_assoc. reflexivity.
Qed.


(** C3, evaluated. For data of four bytes [a b c d] the chunks are handed
    to [send_cmd] reversed ([b a] with 0x0D, [d c] with 0x0F), but the
    single chunk of two-byte data [a b] is handed to [send_cmd] as it is,
    not reversed: on the wire the four-byte write puts [a] before [b],
    the two-byte write [b] before [a]. *)
Theorem write_single_chunk_not_reversed :
  forall (rx : nat -> bytes) (fuel : nat) (a b c d : byte) (s : Bus),
    write rx fuel 0x800 [a; b] false false s =
      (Ret tt, released s,
       enter_seq ++ pm_setup 0x800 ++ encoded [x0f] [a; b] ++ pm_finish)
    /\ write rx fuel 0x800 [a; b; c; d] false false s =
      (Ret tt, released s,
       enter_seq ++ pm_setup 0x800 ++
       encoded [x0d] [b; a] ++ encoded [x0f] [d; c] ++ pm_finish)
    /\ encoded [x0f] [a; b] = [WriteBits [x0f] 4; Write [b]; Write [a]]
    /\ encoded [x0d] [b; a] = [WriteBits [x0d] 4; Write [a]; Write [b]]
    /\ encoded [x0f] [d; c] = [WriteBits [x0f] 4; Write [c]; Write [d]].
Proof. intros. repeat split. Qed.

(** C2, as stated, fails: [read] with an address beyond 24 bits raises
    [OverflowError] in [set_tblptr], after the entry sequence; the exit
    sequence is not executed and the session stays in [Programming]. *)
Lemma read_overflow_leaves_programming :
  call ex_rx Little 1 (CallRead 0x1000000 1 false) bus0 =
    (Raise OverflowError, mkBus 0 0 1 1 0, enter_seq)
  /\ session bus0 = Idle
  /\ session (mkBus 0 0 1 1 0) = Programming.
Proof. repeat split. Qed.

(** The failure above is not particular to one address: every
    program-memory read at an address beyond 24 bits stops in [set_tblptr],
    with the entry sequence as its whole trace. *)
Lemma read_overflow_after_entry :
  forall (rx : nat -> bytes) (addr length : Z) (s : Bus),
    2 ^ 24 <= addr -> length <> 0 ->
    read rx addr length false s =
      (Raise OverflowError, mkBus 0 0 1 1 (nrx s), enter_seq).
Proof.
  intros rx addr length s Haddr Hlen. unfold read.
  destruct (Z.eqb_spec length 0) as [E | _]; [contradiction |].
  eapply with_trace.
  - run_bind; [apply enter_run |].
    apply bind_raise. apply bind_raise. apply set_tblptr_overflow. exact Haddr.
  - reflexivity.
Qed.

(** The loop of the program-memory write: every chunk but the last goes
    out reversed with opcode 0x0D, and the loop variable keeps the last
    offset. *)
Lemma chunk_loop (data : bytes) (ds : list Z) (last : option Z) (s : Bus) :
  for_ ds last (fun d _ =>
    send_cmd [x0d] (reversed (slice data d (d + 2))) ;; ret (Some d)) s =
  (Ret (fold_left (fun _ d => Some d) ds last), s,
   flat_map (fun d => encoded [x0d] (reversed (slice data d (d + 2)))) ds).
Proof.
  revert last. induction ds as [| d ds IH]; intros last; [reflexivity |].
  cbn [for_ fold_left flat_map]. eapply with_trace.
  - run_bind; [| apply IH].
    run_bind; [apply send_cmd_run | reflexivity].
  - rewrite app_nil_r. reflexivity.
Qed.

Lemma last_of_range (n : Z) :
  4 <= n -> Z.even n = true ->
  fold_left (fun _ d => Some d) (range 0 (n - 2) 2) None = Some (n - 4).
Proof.
  intros Hn Hev. apply Z.even_spec in Hev. destruct Hev as [m ->].
  unfold range.
  replace ((2 * m - 2 - 0 + 2 - 1) / 2) with (m - 1)
    by (apply Z.div_unique with (r := 1); lia).
  replace (Z.to_nat (m - 1)) with (S (Z.to_nat (m - 2))) by lia.
  rewrite seq_S, map_app, fold_left_app. cbn [map fold_left].
  f_equal. lia.
Qed.

(** The branch for four bytes and more does what C3 says: for a 24-bit
    address and data of even length at least 4, every chunk is handed to
    [send_cmd] reversed, the last one with opcode 0x0F. *)
Lemma write_chunks_reversed_from_four :
  forall (rx : nat -> bytes) (fuel : nat) (addr : Z) (data : bytes) (s : Bus),
    0 <= addr < 2 ^ 24 -> 4 <= len data -> Z.even (len data) = true ->
    write rx fuel addr data false false s =
      (Ret tt, released s,
       enter_seq ++ pm_setup addr ++
       flat_map (fun d => encoded [x0d] (reversed (slice data d (d + 2))))
                (range 0 (len data - 2) 2) ++
       encoded [x0f] (reversed (slice_from data (len data - 2))) ++
       pm_finish).
Proof.
  intros rx fuel addr data s Haddr Hlen Hev. unfold write. cbv zeta.
  destruct (Z.ltb_spec (len data) 2) as [? | _]; [lia |].
  rewrite Zmod_even, Hev. cbv iota.
  destruct (Z.eqb_spec (len data) 2) as [? | _]; [lia |].
  change (0 =? 1) with false. cbv iota.
  eapply with_result.
  - run_bind; [apply enter_run |].
    run_bind.
    + run_bind; [apply send_cmd_run |].
      run_bind; [apply send_cmd_run |].
      run_bind; [apply set_tblptr_run; exact Haddr |].
      run_bind; [apply send_cmd_run |].
      run_bind; [apply send_cmd_run |].
      run_bind; [reflexivity |].
      run_bind.
      * run_bind; [apply chunk_loop |].
        rewrite last_of_range by assumption.
        replace (len data - 4 + 2) with (len data - 2) by lia.
        apply send_cmd_run.
      * repeat (run_bind; [reflexivity |]). reflexivity.
    + repeat (run_bind; [first [apply nop_2_run | apply send_cmd_run
                               | reflexivity] |]).
      apply exit_run.
  - reflexivity.
  - reflexivity.
  - unfold pm_setup, pm_finish, core. rewrite <- !app_assoc. reflexivity.
Qed.

Lemma write_chunks_reversed_from_four_witness :
  write ex_rx 0 0x800 [x41; x42; x43; x44; x45; x46] false false bus0 =
    (Ret tt, released bus0,
     enter_seq ++ pm_setup 0x800 ++
     (encoded [x0d] [x42; x41] ++ encoded [x0d] [x44; x43]) ++
     encoded [x0f] [x46; x45] ++ pm_finish).
Proof.
  apply (write_chunks_reversed_from_four ex_rx 0 0x800
           [x41; x42; x43; x44; x45; x46] bus0); [lia | | reflexivity].
  cbn. lia.
Defined.

(** The completion poll: a target that answers with bit 1 clear lets an
    EEPROM write return after one poll per byte; a target that keeps bit 1
    set uses up any bound. *)
Example write_eeprom_returns :
  result (write (fun _ => [x00]) 1 0x10 [x41; x42] true false bus0) = Ret tt
  /\ final (write (fun _ => [x00]) 1 0x10 [x41; x42] true false bus0)
     = mkBus 0 0 0 0 2.
Proof. split; reflexivity. Qed.

Example write_eeprom_busy_forever :
  result (write (fun _ => [x02]) 5 0x10 [x41; x42] true false bus0) = Hang
  /\ session (final (write (fun _ => [x02]) 5 0x10 [x41; x42] true false bus0))
     = Programming.
Proof. split; reflexivity. Qed.

(** *** The session discipline of the public operations *)

Lemma session_same s s' :
  aux0 s' = aux0 s -> aux1 s' = aux1 s -> session s' = session s.
Proof. unfold session. intros -> ->. reflexivity. Qed.

Ltac prim_events :=
  repeat first [apply Forall_nil | apply Forall_cons];
  try (unfold not_aux; intros ? ?; discriminate).

Ltac prim_inside :=
  let H := fresh "H" in
  intros ? ? ? ? H; inversion H; subst; cbn;
  repeat split; prim_events.

Lemma inside_ret {A} (a : A) : inside (ret a).
Proof. prim_inside. Qed.

Lemma inside_hang {A} : inside (@hang A).
Proof. prim_inside. Qed.

Lemma inside_raise_unbound {A} : inside (@raise A UnboundLocalError).
Proof. prim_inside. Qed.

Lemma inside_set_sda v : inside (RawWire.set_sda v).
Proof. prim_inside. Qed.

Lemma inside_set_clk v : inside (RawWire.set_clk v).
Proof. prim_inside. Qed.

Lemma inside_clocks n : inside (RawWire.clocks n).
Proof. prim_inside. Qed.

Lemma inside_sleep n : inside (sleep n).
Proof. prim_inside. Qed.

Lemma inside_rw_read rx n : inside (RawWire.read rx n).
Proof. prim_inside. Qed.

Lemma inside_send_cmd cmd payload : inside (send_cmd cmd payload).
Proof.
  unfold send_cmd, bind, RawWire.write_bits, RawWire.write.
  destruct (len payload mod 2 =? 0); prim_inside.
Qed.

Lemma inside_to_bytes a n : inside (lift (to_bytes a n)).
Proof.
  unfold to_bytes. destruct ((a <? 0) || (256 ^ Z.of_nat n <=? a)); prim_inside.
Qed.

Lemma inside_bind {A B} (m : M A) (f : A -> M B) :
  inside m -> (forall a, inside (f a)) -> inside (bind m f).
Proof.
  intros Hm Hf s r s' t. unfold bind.
  destruct (m s) as [[r1 s1] t1] eqn:E1.
  destruct (Hm _ _ _ _ E1) as (H0 & H1 & Ht & Hr).
  destruct r1 as [a | e |].
  - destruct (f a s1) as [[r2 s2] t2] eqn:E2.
    intros H. inversion H; subst.
    destruct (Hf a _ _ _ _ E2) as (H0' & H1' & Ht' & Hr').
    repeat split; try congruence.
    apply Forall_app. split; assumption.
  - intros H. inversion H; subst. auto.
  - intros H. inversion H; subst. auto.
Qed.

Lemma inside_for {X S} (body : X -> S -> M S) :
  (forall x acc, inside (body x acc)) ->
  forall xs acc, inside (for_ xs acc body).
Proof.
  intros Hbody xs. induction xs as [| x xs IH]; intros acc; cbn [for_].
  - apply inside_ret.
  - apply inside_bind; [apply Hbody | exact IH].
Qed.

(** Decompose a sequence of actions that runs inside the session. *)
Ltac inside_step :=
  cbv beta zeta;
  lazymatch goal with
  | |- inside (bind _ _) => apply inside_bind; [| intros ?]
  | |- inside (ret _) => apply inside_ret
  | |- inside hang => apply inside_hang
  | |- inside (raise UnboundLocalError) => apply inside_raise_unbound
  | |- inside (send_cmd _ _) => apply inside_send_cmd
  | |- inside (lift (to_bytes _ _)) => apply inside_to_bytes
  | |- inside (RawWire.set_sda _) => apply inside_set_sda
  | |- inside (RawWire.set_clk _) => apply inside_set_clk
  | |- inside (RawWire.clocks _) => apply inside_clocks
  | |- inside (RawWire.read _ _) => apply inside_rw_read
  | |- inside (sleep _) => apply inside_sleep
  | |- inside (for_ _ _ _) => apply inside_for; intros ? ?
  | |- inside (for_each _ _) => apply inside_for; intros ? ?
  | |- inside (if ?b then _ else _) => destruct b
  | |- inside (match ?x with Some _ => _ | None => _ end) => destruct x
  end.

Lemma inside_nop n : inside (nop n).
Proof. unfold nop. repeat inside_step. Qed.

Lemma inside_set_tblptr a : inside (set_tblptr a).
Proof. unfold set_tblptr. repeat inside_step. Qed.

Lemma inside_set_eeaddr a : inside (set_eeaddr a).
Proof. unfold set_eeaddr. repeat inside_step. Qed.

Lemma inside_poll_wr rx : inside (poll_wr rx).
Proof. unfold poll_wr. repeat first [apply inside_nop | inside_step]. Qed.

Lemma inside_wait_wr rx fuel : inside (wait_wr rx fuel).
Proof.
  induction fuel as [| k IH]; cbn [wait_wr].
  - apply inside_hang.
  - apply inside_bind; [apply inside_poll_wr |].
    intros busy. destruct (busy =? 0); [apply inside_ret | exact IH].
Qed.

Ltac inside_tac :=
  repeat first
    [ apply inside_nop | apply inside_set_tblptr | apply inside_set_eeaddr
    | apply inside_wait_wr | inside_step ].

Lemma after_ret {A} (a : A) : after (ret a).
Proof. intros s r s' t H. inversion H; subst. cbn. auto. Qed.

Lemma after_print line : after (print line).
Proof.
  intros s r s' t H. inversion H; subst. cbn. repeat split.
  repeat constructor. exists line. reflexivity.
Qed.

Lemma after_unpack host n data : after (lift (unpack_H host n data)).
Proof.
  unfold unpack_H. destruct (List.length data =? 2 * n)%nat;
    intros s r s' t H; inversion H; subst; cbn; auto.
Qed.

Lemma after_bind {A B} (m : M A) (f : A -> M B) :
  after m -> (forall a, after (f a)) -> after (bind m f).
Proof.
  intros Hm Hf s r s' t. unfold bind.
  destruct (m s) as [[r1 s1] t1] eqn:E1.
  destruct (Hm _ _ _ _ E1) as (-> & Ht & Hr).
  destruct r1 as [a | e |].
  - destruct (f a s) as [[r2 s2] t2] eqn:E2.
    intros H. inversion H; subst.
    destruct (Hf a _ _ _ _ E2) as (-> & Ht' & Hr').
    repeat split; [apply Forall_app; split; assumption | exact Hr'].
  - intros H. inversion H; subst. auto.
  - intros H. inversion H; subst. auto.
Qed.

Lemma after_for {X S} (body : X -> S -> M S) :
  (forall x acc, after (body x acc)) ->
  forall xs acc, after (for_ xs acc body).
Proof.
  intros Hbody xs. induction xs as [| x xs IH]; intros acc; cbn [for_].
  - apply after_ret.
  - apply after_bind; [apply Hbody | exact IH].
Qed.

Lemma after_report label w values : after (report label w values).
Proof.
  unfold report. apply after_bind; [| intros; apply after_ret].
  apply after_for. intros i c.
  apply after_bind; [apply after_print | intros; apply after_ret].
Qed.

Lemma closing_exit : closing _exit_prog.
Proof.
  intros s r s' t _ H. rewrite exit_run in H. inversion H; subst. cbn.
  split; [reflexivity |]. exists [], []. split; [reflexivity | constructor].
Qed.

Lemma closing_exit_then {A} (tail : unit -> M A) :
  (forall u, after (tail u)) -> closing (bind _exit_prog tail).
Proof.
  intros Haft s r s' t _ H. unfold bind in H. rewrite exit_run in H.
  destruct (tail tt (released s)) as [[r2 s2] t2] eqn:E.
  inversion H; subst.
  destruct (Haft tt _ _ _ _ E) as (-> & Hp & Hr).
  assert (Hgoal : session (released s) = Idle /\
                  exists mid out, exit_seq ++ t2 = mid ++ exit_seq ++ out /\
                                  Forall is_print out).
  { split; [reflexivity |]. exists [], t2. split; [reflexivity | exact Hp]. }
  destruct r as [a | [msg | | |] |]; cbn in Hr; try contradiction; exact Hgoal.
Qed.

Lemma closing_bind {A B} (m : M A) (f : A -> M B) :
  inside m -> (forall a, closing (f a)) -> closing (bind m f).
Proof.
  intros Hm Hf s r s' t Hs. unfold bind.
  destruct (m s) as [[r1 s1] t1] eqn:E1.
  destruct (Hm _ _ _ _ E1) as (H0 & H1 & Ht & Hr).
  assert (Hs1 : session s1 = Programming)
    by (rewrite (session_same s s1 H0 H1); exact Hs).
  destruct r1 as [a | e |].
  - destruct (f a s1) as [[r2 s2] t2] eqn:E2.
    intros H. inversion H; subst.
    pose proof (Hf a _ _ _ _ Hs1 E2) as Hpost.
    destruct r as [b | [msg | | |] |]; cbn in Hpost |- *;
      try contradiction;
      try (destruct Hpost as (Hi & mid & out & -> & Hp);
           split; [exact Hi |]; exists (t1 ++ mid), out;
           split; [rewrite app_assoc; reflexivity | exact Hp]);
      try (destruct Hpost as (Hi & Hp); split;
           [exact Hi | apply Forall_app; split; assumption]).
  - intros H. inversion H; subst.
    destruct e; cbn in Hr |- *; try contradiction; auto.
  - intros H. inversion H; subst. cbn. auto.
Qed.

Ltac after_tac :=
  cbv beta zeta;
  repeat first
    [ apply after_report | apply after_unpack | apply after_ret
    | apply after_bind; [| intros ?] ].

(** Decompose what follows the entry sequence. *)
Ltac closing_tac :=
  repeat (cbv beta zeta;
    lazymatch goal with
    | |- closing (bind _exit_prog _) =>
        apply closing_exit_then; intros ?; after_tac
    | |- closing _exit_prog => apply closing_exit
    | |- closing (bind _ _) => apply closing_bind; [inside_tac | intros ?]
    end).

Lemma discipline_enter {A} (rest : M A) s :
  closing rest -> discipline s ((_enter_prog ;; rest) s).
Proof.
  intros Hc. unfold bind. rewrite enter_run.
  destruct (rest (mkBus 0 0 1 1 (nrx s))) as [[r s'] t] eqn:E.
  assert (Hpost : closing_post r s' t) by (eapply Hc; [| exact E]; reflexivity).
  destruct r as [a | [msg | | |] |]; cbn in Hpost |- *;
    try contradiction;
    try (destruct Hpost as (Hi & mid & out & -> & Hp);
         split; [exact Hi |]; exists mid, out;
         split; [reflexivity | exact Hp]);
    try (destruct Hpost as (Hi & Hp); split; [exact Hi |];
         exists t; split; [reflexivity | exact Hp]).
Qed.

Lemma discipline_then_ret {A B} (m : M A) (g : A -> B) s :
  discipline s (m s) -> discipline s ((x <- m ;; ret (g x)) s).
Proof.
  unfold bind. destruct (m s) as [[r s'] t].
  destruct r as [a | e |]; cbn [ret]; rewrite ?app_nil_r; auto.
Qed.

Lemma read_discipline rx addr length eeprom s :
  discipline s (read rx addr length eeprom s).
Proof.
  unfold read. destruct (length =? 0).
  - cbn. auto.
  - apply discipline_enter. closing_tac.
Qed.

Lemma write_discipline rx fuel addr data eeprom erase s :
  discipline s (write rx fuel addr data eeprom erase s).
Proof.
  unfold write. cbv zeta.
  destruct (len data <? 2); [cbn; auto |].
  destruct (len data mod 2 =? 1); [cbn; auto |].
  apply discipline_enter. closing_tac.
Qed.

Lemma erase_panel_discipline panel s : discipline s (erase_panel panel s).
Proof. unfold erase_panel. apply discipline_enter. closing_tac. Qed.

Lemma get_cfg_ID_discipline rx host address s :
  discipline s (get_cfg_ID rx host address s).
Proof. unfold get_cfg_ID. apply discipline_enter. closing_tac. Qed.

Lemma get_loc_ID_discipline rx host address s :
  discipline s (get_loc_ID rx host address s).
Proof. unfold get_loc_ID. apply discipline_enter. closing_tac. Qed.

Lemma get_dev_ID_discipline rx address s :
  discipline s (get_dev_ID rx address s).
Proof. unfold get_dev_ID. apply discipline_enter. closing_tac. Qed.

(** C2, amended. Every call of a public operation obeys the session
    discipline: if it returns, it ran the entry sequence first and the exit
    sequence afterwards and the session is [Idle]; [ValueError] is raised
    before anything is done; [struct.error] is raised after the exit
    sequence; any other exception, and a poll loop that has not finished,
    leave the entry sequence without its exit sequence and the session in
    [Programming]. *)
Theorem call_session_discipline :
  forall (rx : nat -> bytes) (host : byteorder) (fuel : nat) (c : Call) (s : Bus),
    discipline s (call rx host fuel c s).
Proof.
  intros rx host fuel c s. destruct c; unfold call;
    apply discipline_then_ret.
  - apply read_discipline.
  - apply write_discipline.
  - apply erase_panel_discipline.
  - apply get_cfg_ID_discipline.
  - apply get_loc_ID_discipline.
  - apply get_dev_ID_discipline.
Qed.

(** ** Further properties of the driver *)

(** *** Loading the address registers *)

Lemma Z_of_byte_of_Z z : Z_of_byte (byte_of_Z z) = z mod 256.
Proof.
  unfold Z_of_byte, byte_of_Z.
  assert (Hb : (Z.to_N (z mod 256) < 256)%N)
    by (pose proof (Z.mod_pos_bound z 256); lia).
  erewrite Byte.to_of_N by (symmetry; apply byte_of_ascii_via_N).
  rewrite N_ascii_embedding by exact Hb.
  pose proof (Z.mod_pos_bound z 256). lia.
Qed.

Lemma to_bytes_overflow a n :
  a < 0 \/ 256 ^ Z.of_nat n <= a -> to_bytes a n = inl OverflowError.
Proof.
  intros H. unfold to_bytes.
  replace ((a <? 0) || (256 ^ Z.of_nat n <=? a)) with true; [reflexivity |].
  symmetry. apply orb_true_iff.
  destruct H as [H | H]; [left; apply Z.ltb_lt | right; apply Z.leb_le]; exact H.
Qed.

(** X1. For an address that fits 24 bits, [set_tblptr] sends six core
    instructions and nothing else, leaving the bus as it was: MOVLW upper
    byte, MOVWF TBLPTRU (6E F8), MOVLW high byte, MOVWF TBLPTRH (6E F7),
    MOVLW low byte, MOVWF TBLPTRL (6E F6), each instruction word low byte
    first on the wire; the three literals, read big-endian, are the
    address. *)
Theorem set_tblptr_loads_address : forall (a : Z) (s : Bus),
  0 <= a < 2 ^ 24 ->
  let u := byte_of_Z (Z.shiftr a 16) in
  let h := byte_of_Z (Z.shiftr a 8) in
  let l := byte_of_Z a in
  set_tblptr a s =
    (Ret tt, s,
     [WriteBits [x00] 4; Write [u]; Write [x0e];
      WriteBits [x00] 4; Write [xf8]; Write [x6e];
      WriteBits [x00] 4; Write [h]; Write [x0e];
      WriteBits [x00] 4; Write [xf7]; Write [x6e];
      WriteBits [x00] 4; Write [l]; Write [x0e];
      WriteBits [x00] 4; Write [xf6]; Write [x6e]])
  /\ from_bytes [u; h; l] = a.
Proof.
  intros a s Ha u h l. split.
  - rewrite set_tblptr_run by exact Ha. reflexivity.
  - unfold from_bytes, u, h, l. cbn [fold_left].
    rewrite !Z_of_byte_of_Z, !Z.shiftr_div_pow2 by lia.
    change (2 ^ 24) with 16777216 in Ha.
    change (2 ^ 16) with 65536. change (2 ^ 8) with 256.
    Z.div_mod_to_equations. lia.
Qed.

Lemma set_tblptr_loads_address_witness :
  (0 <= 0x3c0005 < 2 ^ 24) /\
  set_tblptr 0x3c0005 bus0 =
    (Ret tt, bus0,
     [WriteBits [x00] 4; Write [x3c]; Write [x0e];
      WriteBits [x00] 4; Write [xf8]; Write [x6e];
      WriteBits [x00] 4; Write [x00]; Write [x0e];
      WriteBits [x00] 4; Write [xf7]; Write [x6e];
      WriteBits [x00] 4; Write [x05]; Write [x0e];
      WriteBits [x00] 4; Write [xf6]; Write [x6e]])
  /\ from_bytes [x3c; x00; x05] = 0x3c0005.
Proof.
  split; [lia |].
  apply (set_tblptr_loads_address 0x3c0005 bus0). lia.
Defined.

(** X2. [set_tblptr] with a negative address or one of more than 24 bits
    raises [OverflowError] before anything is sent. *)
Theorem set_tblptr_rejects_out_of_range : forall (a : Z) (s : Bus),
  a < 0 \/ 2 ^ 24 <= a ->
  set_tblptr a s = (Raise OverflowError, s, []).
Proof.
  intros a s H. unfold set_tblptr.
  rewrite to_bytes_overflow by exact H. reflexivity.
Qed.

Lemma set_tblptr_rejects_out_of_range_witness :
  (-1 < 0 \/ 2 ^ 24 <= -1) /\
  set_tblptr (-1) bus0 = (Raise OverflowError, bus0, []).
Proof.
  split; [left; lia |].
  apply (set_tblptr_rejects_out_of_range (-1) bus0). left. lia.
Defined.

(** X3. For an address that fits 16 bits, [set_eeaddr] sends four core
    instructions and nothing else, leaving the bus as it was: MOVLW high
    byte, MOVWF EEADRH (6E AA), MOVLW low byte, MOVWF EEADR (6E A9); the
    two literals, read big-endian, are the address. *)
Theorem set_eeaddr_loads_address : forall (a : Z) (s : Bus),
  0 <= a < 2 ^ 16 ->
  let h := byte_of_Z (Z.shiftr a 8) in
  let l := byte_of_Z a in
  set_eeaddr a s =
    (Ret tt, s,
     [WriteBits [x00] 4; Write [h]; Write [x0e];
      WriteBits [x00] 4; Write [xaa]; Write [x6e];
      WriteBits [x00] 4; Write [l]; Write [x0e];
      WriteBits [x00] 4; Write [xa9]; Write [x6e]])
  /\ from_bytes [h; l] = a.
Proof.
  intros a s Ha h l. split.
  - rewrite set_eeaddr_run by exact Ha. reflexivity.
  - unfold from_bytes, h, l. cbn [fold_left].
    rewrite !Z_of_byte_of_Z, !Z.shiftr_div_pow2 by lia.
    change (2 ^ 16) with 65536 in Ha. change (2 ^ 8) with 256.
    Z.div_mod_to_equations. lia.
Qed.

Lemma set_eeaddr_loads_address_witness :
  (0 <= 0x1234 < 2 ^ 16) /\
  set_eeaddr 0x1234 bus0 =
    (Ret tt, bus0,
     [WriteBits [x00] 4; Write [x12]; Write [x0e];
      WriteBits [x00] 4; Write [xaa]; Write [x6e];
      WriteBits [x00] 4; Write [x34]; Write [x0e];
      WriteBits [x00] 4; Write [xa9]; Write [x6e]])
  /\ from_bytes [x12; x34] = 0x1234.
Proof.
  split; [lia |].
  apply (set_eeaddr_loads_address 0x1234 bus0). lia.
Defined.

(** X4. [set_eeaddr] with a negative address or one of more than 16 bits
    raises [OverflowError] before anything is sent. *)
Theorem set_eeaddr_rejects_out_of_range : forall (a : Z) (s : Bus),
  a < 0 \/ 2 ^ 16 <= a ->
  set_eeaddr a s = (Raise OverflowError, s, []).
Proof.
  intros a s H. unfold set_eeaddr.
  rewrite to_bytes_overflow by exact H. reflexivity.
Qed.

Lemma set_eeaddr_rejects_out_of_range_witness :
  (0x10000 < 0 \/ 2 ^ 16 <= 0x10000) /\
  set_eeaddr 0x10000 bus0 = (Raise OverflowError, bus0, []).
Proof.
  split; [right; lia |].
  apply (set_eeaddr_rejects_out_of_range 0x10000 bus0). right. lia.
Defined.

(** *** No-ops and the completion poll *)

(** A loop whose body neither reads nor changes the bus. *)
Lemma for_pure {X S} (body : X -> S -> M S) (g : X -> S -> S)
    (tr : X -> list Event) :
  (forall x acc s, body x acc s = (Ret (g x acc), s, tr x)) ->
  forall xs acc s,
    for_ xs acc body s =
      (Ret (fold_left (fun a x => g x a) xs acc), s, flat_map tr xs).
Proof.
  intros Hbody xs. induction xs as [| x xs IH]; intros acc s; [reflexivity |].
  cbn [for_ fold_left flat_map].
  eapply bind_eq; [apply Hbody | apply IH].
Qed.

(** X5. [nop(repeat)] sends exactly [repeat] no-op instructions (opcode
    0, instruction word 00 00) and nothing else, and leaves the bus as it
    was; for [repeat <= 0] the count is zero and it sends nothing. *)
Theorem nop_sends_repeat_noops : forall (n : Z) (s : Bus),
  nop n s =
    (Ret tt, s,
     List.concat
       (repeat [WriteBits [x00] 4; Write [x00]; Write [x00]]
               (Z.to_nat (Z.max 0 n)))).
Proof.
  intros n s. unfold nop, for_each. rewrite range_from_0.
  rewrite (for_pure _ (fun _ _ => tt) (fun _ => core x00 x00))
    by (intros; apply send_cmd_run).
  rewrite flat_map_const, length_map, length_seq.
  replace (Z.to_nat (Z.max 0 n)) with (Z.to_nat n) by lia.
  f_equal. f_equal.
  induction (map Z.of_nat (seq 0 (Z.to_nat n))) as [| x xs IH];
    [reflexivity | exact IH].
Qed.

Lemma bit1_of (x : Z) : Z.land (Z.shiftr x 1) 1 = Z.b2z (Z.testbit x 1).
Proof.
  change 1 with (Z.ones 1) at 2. rewrite Z.land_ones by lia.
  change (2 ^ 1) with 2. rewrite <- Z.bit0_mod.
  rewrite Z.shiftr_spec by lia. reflexivity.
Qed.

(** X6. [poll_wr] copies EECON1 to TABLAT (MOVF EECON1,W = 50 A6; MOVWF
    TABLAT = 6E F5), sends one no-op and the table-latch readout 0x02 with
    payload 00, reads one answer and returns bit 1 of its big-endian
    value, as 0 or 1; no line is driven. *)
Theorem poll_wr_returns_bit_1 : forall (rx : nat -> bytes) (s : Bus),
  poll_wr rx s =
    (Ret (Z.b2z (Z.testbit (from_bytes (rx (nrx s))) 1)),
     mkBus (sda s) (clk s) (aux0 s) (aux1 s) (S (nrx s)),
     [WriteBits [x00] 4; Write [xa6]; Write [x50];
      WriteBits [x00] 4; Write [xf5]; Write [x6e];
      WriteBits [x00] 4; Write [x00]; Write [x00];
      WriteBits [x02] 4; Write [x00];
      Read 1]).
Proof.
  intros rx s. rewrite <- bit1_of. reflexivity.
Qed.

Lemma poll_wr_run rx s :
  poll_wr rx s =
    (Ret (Z.b2z (busy (rx (nrx s)))),
     mkBus (sda s) (clk s) (aux0 s) (aux1 s) (S (nrx s)), poll_seq).
Proof. unfold busy. rewrite <- bit1_of. reflexivity. Qed.

(** The poll loop up to the first answer with the flag clear. *)
Lemma wait_wr_clear_run :
  forall (rx : nat -> bytes) (k fuel : nat) (s : Bus),
    (forall i, (i < k)%nat -> busy (rx (nrx s + i)%nat) = true) ->
    busy (rx (nrx s + k)%nat) = false ->
    (k < fuel)%nat ->
    wait_wr rx fuel s =
      (Ret tt, advance (S k) s, List.concat (repeat poll_seq (S k))).
Proof.
  intros rx k. induction k as [| k IH]; intros fuel s Hbusy Hclear Hfuel;
    (destruct fuel as [| fuel]; [lia |]); cbn [wait_wr].
  - rewrite Nat.add_0_r in Hclear.
    eapply with_result.
    + eapply bind_eq; [apply poll_wr_run |]. rewrite Hclear. reflexivity.
    + reflexivity.
    + unfold advance. f_equal. lia.
    + reflexivity.
  - assert (H0 : busy (rx (nrx s)) = true)
      by (rewrite <- (Nat.add_0_r (nrx s)); apply Hbusy; lia).
    eapply with_result.
    + eapply bind_eq; [apply poll_wr_run |]. rewrite H0. cbn [Z.b2z].
      change (1 =? 0) with false. cbv iota.
      apply IH.
      * intros i Hi. cbn [nrx].
        replace (S (nrx s) + i)%nat with (nrx s + S i)%nat by lia.
        apply Hbusy. lia.
      * cbn [nrx].
        replace (S (nrx s) + k)%nat with (nrx s + S k)%nat by lia.
        exact Hclear.
      * lia.
    + reflexivity.
    + unfold advance. cbn. f_equal. lia.
    + reflexivity.
Qed.

(** X7. The completion poll returns at the first answer whose bit 1 is
    clear: if the next [k] answers have the flag set, the one after them
    has it clear and the bound allows more than [k] polls, the loop ends
    after exactly [k + 1] polls. *)
Theorem wait_wr_returns_at_first_clear :
  forall (rx : nat -> bytes) (k fuel : nat) (s : Bus),
    (forall i, (i < k)%nat -> busy (rx (nrx s + i)%nat) = true) ->
    busy (rx (nrx s + k)%nat) = false ->
    (k < fuel)%nat ->
    wait_wr rx fuel s =
      (Ret tt, advance (S k) s, List.concat (repeat poll_seq (S k))).
Proof.
  intros rx k fuel s Hbusy Hclear Hfuel.
  apply wait_wr_clear_run; assumption.
Qed.

Lemma wait_wr_returns_at_first_clear_witness :
  (forall i, (i < 2)%nat -> busy (rx_busy_twice (nrx bus0 + i)%nat) = true) /\
  busy (rx_busy_twice (nrx bus0 + 2)%nat) = false /\
  (2 < 5)%nat /\
  wait_wr rx_busy_twice 5 bus0 =
    (Ret tt, advance 3 bus0, List.concat (repeat poll_seq 3)).
Proof.
  assert (H : forall i, (i < 2)%nat ->
                        busy (rx_busy_twice (nrx bus0 + i)%nat) = true).
  { intros i Hi. destruct i as [| [| i]]; [reflexivity | reflexivity | lia]. }
  split; [exact H |]. split; [reflexivity |]. split; [lia |].
  apply (wait_wr_returns_at_first_clear rx_busy_twice 2 5 bus0);
    [exact H | reflexivity | lia].
Defined.

(** The poll loop on answers that all have the flag set. *)
Lemma wait_wr_busy_run :
  forall (rx : nat -> bytes) (fuel : nat) (s : Bus),
    (forall i, (i < fuel)%nat -> busy (rx (nrx s + i)%nat) = true) ->
    wait_wr rx fuel s =
      (Hang, advance fuel s, List.concat (repeat poll_seq fuel)).
Proof.
  intros rx fuel. induction fuel as [| fuel IH]; intros s Hbusy;
    cbn [wait_wr].
  - cbn. rewrite advance_0. reflexivity.
  - assert (H0 : busy (rx (nrx s)) = true)
      by (rewrite <- (Nat.add_0_r (nrx s)); apply Hbusy; lia).
    eapply with_result.
    + eapply bind_eq; [apply poll_wr_run |]. rewrite H0. cbn [Z.b2z].
      change (1 =? 0) with false. cbv iota.
      apply IH. intros i Hi. cbn [nrx].
      replace (S (nrx s) + i)%nat with (nrx s + S i)%nat by lia.
      apply Hbusy. lia.
    + reflexivity.
    + unfold advance. cbn. f_equal. lia.
    + reflexivity.
Qed.

(** X8. The completion poll has no way out while the target is busy: if
    the next [fuel] answers all have bit 1 set, then after [fuel] polls
    the loop has neither returned nor raised, whatever [fuel] is. *)
Theorem wait_wr_spins_while_busy :
  forall (rx : nat -> bytes) (fuel : nat) (s : Bus),
    (forall i, (i < fuel)%nat -> busy (rx (nrx s + i)%nat) = true) ->
    wait_wr rx fuel s =
      (Hang, advance fuel s, List.concat (repeat poll_seq fuel)).
Proof.
  intros rx fuel s Hbusy.
  apply wait_wr_busy_run. exact Hbusy.
Qed.

Lemma wait_wr_spins_while_busy_witness :
  (forall i, (i < 4)%nat -> busy (rx_busy (nrx bus0 + i)%nat) = true) /\
  wait_wr rx_busy 4 bus0 =
    (Hang, advance 4 bus0, List.concat (repeat poll_seq 4)).
Proof.
  split; [intros i Hi; reflexivity |].
  apply (wait_wr_spins_while_busy rx_busy 4 bus0).
  intros i Hi. reflexivity.
Defined.

(** *** Edge cases of [read] *)

(** X9. A negative [length] is not rejected: [read] runs a whole session
    (entry, the set-up of the chosen memory, exit) without a single read
    and returns the empty byte string. *)
Theorem read_negative_length_returns_empty :
  forall (rx : nat -> bytes) (addr length : Z) (eeprom : bool) (s : Bus),
    length < 0 ->
    eeprom = true \/ 0 <= addr < 2 ^ 24 ->
    read rx addr length eeprom s =
      (Ret [], released s,
       enter_seq ++
       (if eeprom then core x9e xa6 ++ core x9c xa6 else tblptr_seq addr) ++
       exit_seq).
Proof.
  intros rx addr length eeprom s Hlen Hok. unfold read.
  destruct (Z.eqb_spec length 0) as [E | _]; [lia |].
  rewrite range_from_0. replace (Z.to_nat length) with O by lia.
  cbn [seq map for_].
  destruct eeprom.
  - reflexivity.
  - destruct Hok as [Hok | Hok]; [discriminate |].
    eapply with_result.
    + run_bind; [apply enter_run |].
      run_bind.
      * run_bind; [apply set_tblptr_run; exact Hok | reflexivity].
      * run_bind; [apply exit_run | reflexivity].
    + reflexivity.
    + reflexivity.
    + rewrite !app_nil_r. reflexivity.
Qed.

Lemma read_negative_length_returns_empty_witness :
  (-3 < 0) /\ (false = true \/ 0 <= 0x800 < 2 ^ 24) /\
  read ex_rx 0x800 (-3) false bus0 =
    (Ret [], released bus0, enter_seq ++ tblptr_seq 0x800 ++ exit_seq).
Proof.
  split; [lia |]. split; [right; lia |].
  apply (read_negative_length_returns_empty ex_rx 0x800 (-3) false bus0);
    [lia | right; lia].
Defined.

Lemma ee_read_body_run (rx : nat -> bytes) (a : Z) (acc : bytes) (s : Bus) :
  0 <= a < 2 ^ 16 ->
  (set_eeaddr a ;;
   send_cmd [x00] [x80; xa6] ;;
   send_cmd [x00] [x6e; xf5] ;;
   send_cmd [x00] [x50; xa8] ;;
   nop 1 ;;
   b <- RawWire.read rx 1 ;;
   ret (acc ++ b)) s =
  (Ret (acc ++ rx (nrx s)),
   mkBus (sda s) (clk s) (aux0 s) (aux1 s) (S (nrx s)),
   ee_read_step a).
Proof.
  intros Ha. eapply with_trace.
  - run_bind; [apply set_eeaddr_run; exact Ha |].
    repeat (run_bind; [first [apply send_cmd_run | apply nop_1_run] |]).
    reflexivity.
  - reflexivity.
Qed.

Lemma ee_read_loop_overflow (rx : nat -> bytes) (addr : Z) :
  forall (good : list Z) (bad : Z) (rest : list Z) (acc : bytes) (s : Bus),
    Forall (fun x => 0 <= addr + x < 2 ^ 16) good ->
    addr + bad < 0 \/ 2 ^ 16 <= addr + bad ->
    for_ (good ++ bad :: rest) acc (fun offset data =>
      set_eeaddr (addr + offset) ;;
      send_cmd [x00] [x80; xa6] ;;
      send_cmd [x00] [x6e; xf5] ;;
      send_cmd [x00] [x50; xa8] ;;
      nop 1 ;;
      b <- RawWire.read rx 1 ;;
      ret (data ++ b)) s =
    (Raise OverflowError, advance (List.length good) s,
     flat_map (fun x => ee_read_step (addr + x)) good).
Proof.
  intros good bad rest. induction good as [| x good IH];
    intros acc s Hgood Hbad.
  - cbn [app for_ List.length flat_map]. rewrite advance_0.
    apply bind_raise. apply bind_raise.
    unfold set_eeaddr. rewrite to_bytes_overflow by exact Hbad.
    reflexivity.
  - inversion Hgood as [| ? ? Hx Hrest]; subst.
    cbn [app for_ List.length flat_map].
    eapply with_result.
    + eapply bind_eq; [apply ee_read_body_run; exact Hx |].
      apply IH; assumption.
    + reflexivity.
    + unfold advance. cbn. f_equal. lia.
    + reflexivity.
Qed.

(** X10. An EEPROM read that runs past the end of the 16-bit address
    space is not rejected up front: it reads the [2^16 - addr] bytes that
    exist, then [set_eeaddr] raises [OverflowError]; the bytes read are
    lost, the exit sequence is not run and the session stays in
    [Programming]. *)
Theorem read_eeprom_past_end :
  forall (rx : nat -> bytes) (addr length : Z) (s : Bus),
    0 <= addr < 2 ^ 16 -> 2 ^ 16 < addr + length ->
    let k := Z.to_nat (2 ^ 16 - addr) in
    read rx addr length true s =
      (Raise OverflowError,
       mkBus 0 0 1 1 (nrx s + k),
       enter_seq ++ core x9e xa6 ++ core x9c xa6 ++
       flat_map (fun offset => ee_read_step (addr + offset))
                (map Z.of_nat (seq 0 k)))
    /\ session (mkBus 0 0 1 1 (nrx s + k)) = Programming.
Proof.
  intros rx addr length s Haddr Hlen k. split; [| reflexivity].
  unfold read. destruct (Z.eqb_spec length 0) as [E | _]; [lia |].
  rewrite range_from_0.
  replace (Z.to_nat length) with (k + S (Z.to_nat length - k - 1))%nat
    by (unfold k; lia).
  rewrite seq_app, map_app. cbn [seq map Nat.add].
  eapply with_result.
  - run_bind; [apply enter_run |].
    apply bind_raise.
    run_bind; [apply send_cmd_run |].
    run_bind; [apply send_cmd_run |].
    apply ee_read_loop_overflow.
    + apply Forall_forall. intros x Hin.
      apply in_map_iff in Hin. destruct Hin as (i & <- & Hi).
      apply in_seq in Hi. unfold k in Hi. lia.
    + right. unfold k. lia.
  - reflexivity.
  - rewrite length_map, length_seq. reflexivity.
  - reflexivity.
Qed.

Lemma read_eeprom_past_end_witness :
  (0 <= 0xfffe < 2 ^ 16) /\ (2 ^ 16 < 0xfffe + 5) /\
  read ex_rx 0xfffe 5 true bus0 =
    (Raise OverflowError,
     mkBus 0 0 1 1 2,
     enter_seq ++ core x9e xa6 ++ core x9c xa6 ++
     ee_read_step 0xfffe ++ ee_read_step 0xffff)
  /\ session (mkBus 0 0 1 1 2) = Programming.
Proof.
  split; [lia |]. split; [lia |].
  apply (read_eeprom_past_end ex_rx 0xfffe 5 bus0); lia.
Defined.

(** *** The two paths of [write] *)

Lemma slices_of_width_1 (data pre : bytes) :
  map (fun i => slice (pre ++ data) (Z.of_nat i) (Z.of_nat i + 1))
      (seq (List.length pre) (List.length data)) =
  map (fun b => [b]) data.
Proof.
  revert pre. induction data as [| b rest IH]; intros pre; [reflexivity |].
  cbn [List.length seq map]. f_equal.
  - unfold slice.
    replace (Z.to_nat (Z.of_nat (List.length pre) + 1) -
             Z.to_nat (Z.of_nat (List.length pre)))%nat with 1%nat by lia.
    rewrite Nat2Z.id, skipn_app, skipn_all, Nat.sub_diag. reflexivity.
  - specialize (IH (pre ++ [b])).
    rewrite <- app_assoc, length_app in IH. cbn [app List.length] in IH.
    rewrite Nat.add_1_r in IH. exact IH.
Qed.

Lemma ee_write_loop (rx : nat -> bytes) (fuel : nat) (data : bytes) :
  (1 <= fuel)%nat ->
  forall (ds : list Z) (s : Bus),
    (forall i, (i < List.length ds)%nat -> busy (rx (nrx s + i)%nat) = false) ->
    for_each ds (fun d =>
      send_cmd [x0e] (slice data d (d + 1)) ;;
      send_cmd [x00] [x84; xa6] ;;
      nop 2 ;;
      wait_wr rx fuel) s =
    (Ret tt, advance (List.length ds) s,
     flat_map (fun d =>
       encoded [x0e] (slice data d (d + 1)) ++ core x84 xa6 ++
       core x00 x00 ++ core x00 x00 ++ poll_seq) ds).
Proof.
  intros Hfuel ds. unfold for_each.
  induction ds as [| d ds IH]; intros s Hready.
  - cbn. rewrite advance_0. reflexivity.
  - cbn [for_ List.length flat_map].
    eapply with_result.
    + eapply bind_eq.
      * run_bind; [apply send_cmd_run |].
        run_bind; [apply send_cmd_run |].
        run_bind; [apply nop_2_run |].
        apply (wait_wr_clear_run rx 0 fuel s).
        -- intros i Hi. lia.
        -- apply Hready. cbn. lia.
        -- lia.
      * apply IH. intros i Hi. cbn [advance nrx].
        replace (nrx s + 1 + i)%nat with (nrx s + S i)%nat by lia.
        apply Hready. cbn. lia.
    + reflexivity.
    + unfold advance. cbn. f_equal. lia.
    + cbn [repeat List.concat]. rewrite app_nil_r, <- !app_assoc. reflexivity.
Qed.

(** The EEPROM path of [write] on a target that is never busy, in terms
    of what [send_cmd] sends. *)
Lemma write_eeprom_run :
  forall (rx : nat -> bytes) (fuel : nat) (addr : Z) (data : bytes)
         (erase : bool) (s : Bus),
    0 <= addr < 2 ^ 16 ->
    2 <= len data -> Z.even (len data) = true ->
    (1 <= fuel)%nat ->
    (forall i, (i < List.length data)%nat -> busy (rx (nrx s + i)%nat) = false) ->
    write rx fuel addr data true erase s =
      (Ret tt,
       mkBus 0 0 0 0 (nrx s + List.length data),
       enter_seq ++ core x9e xa6 ++ core x9c xa6 ++ eeaddr_seq addr ++
       core x84 xa6 ++
       flat_map ee_write_step data ++
       [SetClk 0] ++ core x00 x00 ++ core x00 x00 ++ core x94 xa6 ++
       exit_seq).
Proof.
  intros rx fuel addr data erase s Haddr Hlen Hev Hfuel Hready.
  unfold write. cbv zeta.
  destruct (Z.ltb_spec (len data) 2) as [? | _]; [lia |].
  rewrite Zmod_even, Hev. change (0 =? 1) with false. cbv iota.
  rewrite range_from_0.
  assert (Hn : Z.to_nat (len data) = List.length data)
    by (unfold len; apply Nat2Z.id).
  rewrite Hn.
  eapply with_result.
  - run_bind; [apply enter_run |].
    run_bind.
    + run_bind; [apply send_cmd_run |].
      run_bind; [apply send_cmd_run |].
      run_bind; [apply set_eeaddr_run; exact Haddr |].
      run_bind; [apply send_cmd_run |].
      apply (ee_write_loop rx fuel data Hfuel).
      intros i Hi. rewrite length_map, length_seq in Hi.
      cbn [nrx]. apply Hready. exact Hi.
    + repeat (run_bind; [first [apply nop_2_run | apply send_cmd_run
                               | reflexivity] |]).
      apply exit_run.
  - reflexivity.
  - rewrite length_map, length_seq. reflexivity.
  - rewrite <- !app_assoc.
    pose proof (slices_of_width_1 data []) as Hs. cbn [app List.length] in Hs.
    rewrite flat_map_concat_map, map_map.
    rewrite (flat_map_concat_map ee_write_step data).
    replace (map ee_write_step data)
      with (map (fun d : bytes =>
                   encoded [x0e] d ++ core x84 xa6 ++ core x00 x00 ++
                   core x00 x00 ++ poll_seq) (map (fun b => [b]) data))
      by (rewrite map_map; reflexivity).
    rewrite <- Hs, map_map. reflexivity.
Qed.

Lemma pm_payload_run (data : bytes) (s : Bus) :
  2 <= len data -> Z.even (len data) = true ->
  (if len data =? 2 then send_cmd [x0f] data
   else
     last_d <- for_ (range 0 (len data - 2) 2) None (fun d _ =>
       send_cmd [x0d] (reversed (slice data d (d + 2))) ;;
       ret (Some d)) ;;
     match last_d with
     | Some d => send_cmd [x0f] (reversed (slice_from data (d + 2)))
     | None => raise UnboundLocalError
     end) s =
  (Ret tt, s, pm_payload data).
Proof.
  intros Hlen Hev. unfold pm_payload.
  destruct (Z.eqb_spec (len data) 2) as [E | NE].
  - apply send_cmd_run.
  - assert (H4 : 4 <= len data).
    { apply Z.even_spec in Hev. destruct Hev as [m Hm]. lia. }
    run_bind; [apply chunk_loop |].
    rewrite last_of_range by assumption.
    replace (len data - 4 + 2) with (len data - 2) by lia.
    apply send_cmd_run.
Qed.

(** The program-memory path of [write], in terms of what [send_cmd]
    sends. *)
Lemma write_program_memory_run :
  forall (rx : nat -> bytes) (fuel : nat) (addr : Z) (data : bytes)
         (erase : bool) (s : Bus),
    0 <= addr < 2 ^ 24 ->
    2 <= len data -> Z.even (len data) = true ->
    (erase = true -> (1 <= fuel)%nat /\ busy (rx (nrx s)) = false) ->
    write rx fuel addr data false erase s =
      (Ret tt,
       mkBus 0 0 0 0 (nrx s + (if erase then 1 else 0)),
       enter_seq ++ pm_setup addr ++
       (if erase then erase_block else []) ++
       pm_payload data ++ pm_finish).
Proof.
  intros rx fuel addr data erase s Haddr Hlen Hev Herase.
  unfold write. cbv zeta.
  destruct (Z.ltb_spec (len data) 2) as [? | _]; [lia |].
  rewrite Zmod_even, Hev. change (0 =? 1) with false.
  destruct erase; cbv iota.
  - destruct (Herase eq_refl) as [Hfuel Hready].
    eapply with_result.
    + run_bind; [apply enter_run |].
      run_bind.
      * run_bind; [apply send_cmd_run |].
        run_bind; [apply send_cmd_run |].
        run_bind; [apply set_tblptr_run; exact Haddr |].
        run_bind; [apply send_cmd_run |].
        run_bind; [apply send_cmd_run |].
        run_bind.
        -- run_bind; [apply send_cmd_run |].
           run_bind; [apply send_cmd_run |].
           run_bind; [apply nop_2_run |].
           apply (wait_wr_clear_run rx 0 fuel).
           ++ intros i Hi. lia.
           ++ cbn [nrx]. rewrite Nat.add_0_r. exact Hready.
           ++ lia.
        -- run_bind; [apply pm_payload_run; assumption |].
           repeat (run_bind; [reflexivity |]). reflexivity.
      * repeat (run_bind; [first [apply nop_2_run | apply send_cmd_run
                                 | reflexivity] |]).
        apply exit_run.
    + reflexivity.
    + reflexivity.
    + unfold pm_setup, pm_finish, erase_block, core.
      cbn [repeat List.concat].
      rewrite <- ?app_assoc, ?app_nil_r. reflexivity.
  - eapply with_result.
    + run_bind; [apply enter_run |].
      run_bind.
      * run_bind; [apply send_cmd_run |].
        run_bind; [apply send_cmd_run |].
        run_bind; [apply set_tblptr_run; exact Haddr |].
        run_bind; [apply send_cmd_run |].
        run_bind; [apply send_cmd_run |].
        run_bind; [reflexivity |].
        run_bind; [apply pm_payload_run; assumption |].
        repeat (run_bind; [reflexivity |]). reflexivity.
      * repeat (run_bind; [first [apply nop_2_run | apply send_cmd_run
                                 | reflexivity] |]).
        apply exit_run.
    + reflexivity.
    + cbn. rewrite Nat.add_0_r. reflexivity.
    + unfold pm_setup, pm_finish, core.
      rewrite <- ?app_assoc, ?app_nil_r. reflexivity.
Qed.

Lemma wire_bytes_app t1 t2 : wire_bytes (t1 ++ t2) = wire_bytes t1 ++ wire_bytes t2.
Proof. unfold wire_bytes. apply flat_map_app. Qed.

Lemma chunks_in_order :
  forall (k : nat) (pre rest : bytes),
    List.length rest = (2 * k + 2)%nat ->
    wire_bytes
      (flat_map (fun d => encoded [x0d] (reversed (slice (pre ++ rest) d (d + 2))))
                (map (fun i => Z.of_nat (List.length pre) + 2 * Z.of_nat i) (seq 0 k)) ++
       encoded [x0f]
         (reversed (slice_from (pre ++ rest)
                               (Z.of_nat (List.length pre) + 2 * Z.of_nat k)))) =
    rest.
Proof.
  induction k as [| k IH]; intros pre rest Hlen.
  - destruct rest as [| a [| b [| c rest]]]; cbn in Hlen; try lia.
    cbn [seq map flat_map app]. unfold slice_from.
    replace (Z.to_nat (Z.of_nat (List.length pre) + 2 * Z.of_nat 0))
      with (List.length pre) by lia.
    rewrite skipn_app, skipn_all, Nat.sub_diag. reflexivity.
  - destruct rest as [| a [| b rest]]; cbn in Hlen; try lia.
    cbn [seq map flat_map]. rewrite <- app_assoc, wire_bytes_app.
    rewrite <- seq_shift, map_map.
    specialize (IH (pre ++ [a; b]) rest).
    rewrite <- app_assoc, length_app in IH. cbn [app List.length] in IH.
    replace ((a :: b :: rest)) with ([a; b] ++ rest) by reflexivity.
    assert (Hfirst :
      wire_bytes (encoded [x0d]
        (reversed (slice (pre ++ [a; b] ++ rest)
                         (Z.of_nat (List.length pre) + 2 * Z.of_nat 0)
                         (Z.of_nat (List.length pre) + 2 * Z.of_nat 0 + 2)))) =
      [a; b]).
    { unfold slice.
      replace (Z.to_nat (Z.of_nat (List.length pre) + 2 * Z.of_nat 0 + 2) -
               Z.to_nat (Z.of_nat (List.length pre) + 2 * Z.of_nat 0))%nat
        with 2%nat by lia.
      replace (Z.to_nat (Z.of_nat (List.length pre) + 2 * Z.of_nat 0))
        with (List.length pre) by lia.
      rewrite skipn_app, skipn_all, Nat.sub_diag. reflexivity. }
    rewrite Hfirst. cbn [app]. do 2 f_equal.
    etransitivity; [| apply IH; lia].
    do 2 f_equal.
    + f_equal. apply map_ext. intros i. lia.
    + replace (Z.of_nat (List.length pre) + 2 * Z.of_nat (S k))
        with (Z.of_nat (List.length pre + 2) + 2 * Z.of_nat k) by lia.
      reflexivity.
Qed.

(** X13. A program-memory write of four bytes or more puts the data on
    the wire in its own order: the bytes carried by the payload
    instructions, read in transmission order, are exactly [data]. *)
Theorem write_program_memory_wire_order :
  forall (rx : nat -> bytes) (fuel : nat) (addr : Z) (data : bytes) (s : Bus),
    0 <= addr < 2 ^ 24 ->
    4 <= len data -> Z.even (len data) = true ->
    exists payload,
      trace (write rx fuel addr data false false s) =
        enter_seq ++ pm_setup addr ++ payload ++ pm_finish
      /\ wire_bytes payload = data.
Proof.
  intros rx fuel addr data s Haddr Hlen Hev.
  exists (pm_payload data). split.
  - rewrite (write_program_memory_run rx fuel addr data false s)
      by (try assumption; try lia; intros H; discriminate H).
    reflexivity.
  - unfold pm_payload.
    destruct (Z.eqb_spec (len data) 2) as [E | _]; [lia |].
    apply Z.even_spec in Hev. destruct Hev as [m Hm].
    unfold len in *. unfold range.
    replace ((Z.of_nat (List.length data) - 2 - 0 + 2 - 1) / 2) with (m - 1)
      by (apply Z.div_unique with (r := 1); lia).
    etransitivity;
      [| apply (chunks_in_order (Z.to_nat (m - 1)) [] data); lia].
    cbn [app List.length]. do 2 f_equal.
    + f_equal. apply map_ext. intros i. lia.
    + do 3 f_equal. lia.
Qed.

Lemma write_program_memory_wire_order_witness :
  (0 <= 0x800 < 2 ^ 24) /\ (4 <= len [x41; x42; x43; x44; x45; x46]) /\
  Z.even (len [x41; x42; x43; x44; x45; x46]) = true /\
  exists payload,
    trace (write ex_rx 0 0x800 [x41; x42; x43; x44; x45; x46] false false bus0) =
      enter_seq ++ pm_setup 0x800 ++ payload ++ pm_finish
    /\ wire_bytes payload = [x41; x42; x43; x44; x45; x46].
Proof.
  split; [lia |]. split; [cbn; lia |]. split; [reflexivity |].
  apply (write_program_memory_wire_order ex_rx 0 0x800
           [x41; x42; x43; x44; x45; x46] bus0);
    [lia | cbn; lia | reflexivity].
Defined.

(** *** The identifier reads *)

Lemma table_read_loop (rx : nat -> bytes) (xs : list Z) (s : Bus) :
  for_ xs [] (fun _ data =>
    send_cmd [x09] [x00] ;;
    b <- RawWire.read rx 1 ;;
    ret (data ++ b)) s =
  (Ret (List.concat (map rx (seq (nrx s) (List.length xs)))),
   advance (List.length xs) s,
   List.concat (repeat (encoded [x09] [x00] ++ [Read 1]) (List.length xs))).
Proof.
  rewrite <- flat_map_const.
  eapply with_result;
    [apply (for_reads rx (fun _ => True) (fun _ => encoded [x09] [x00]))
    | reflexivity ..].
  - intros x acc s0 _. run_bind; [apply send_cmd_run | reflexivity].
  - apply Forall_forall. intros; exact I.
Qed.


(** X15. When the 14 answers do not add up to 14 bytes (a target that
    does not answer, for instance), [get_cfg_ID] raises [struct.error]:
    the whole session, exit sequence included, has run by then, the
    session is [Idle] and nothing is printed. *)
Theorem get_cfg_ID_wrong_size :
  forall (rx : nat -> bytes) (host : byteorder) (address : option Z) (s : Bus),
    let a := match address with None => 0x300000 | Some a => a end in
    0 <= a < 2 ^ 24 ->
    List.length (List.concat (map rx (seq (nrx s) 14))) <> 14%nat ->
    get_cfg_ID rx host address s =
      (Raise StructError,
       mkBus 0 0 0 0 (nrx s + 14),
       enter_seq ++ tblptr_seq a ++
       List.concat (repeat (encoded [x09] [x00] ++ [Read 1]) 14) ++
       exit_seq)
    /\ session (mkBus 0 0 0 0 (nrx s + 14)) = Idle.
Proof.
  intros rx host address s a Ha Hsize. split; [| reflexivity].
  unfold get_cfg_ID. fold a.
  set (xs := range 0 14 1).
  assert (Hxs : List.length xs = 14%nat) by reflexivity.
  eapply with_result.
  - run_bind; [apply enter_run |].
    run_bind; [apply set_tblptr_run; exact Ha |].
    run_bind; [apply table_read_loop |].
    run_bind; [apply exit_run |].
    rewrite Hxs. cbn [nrx]. apply bind_raise.
    unfold unpack_H.
    rewrite (proj2 (Nat.eqb_neq _ (2 * 7)) Hsize).
    reflexivity.
  - reflexivity.
  - rewrite ?Hxs. reflexivity.
  - rewrite Hxs. rewrite <- ?app_assoc, ?app_nil_r. reflexivity.
Qed.

Lemma get_cfg_ID_wrong_size_witness :
  (0 <= 0x300000 < 2 ^ 24) /\
  List.length (List.concat (map rx_silent (seq (nrx bus0) 14))) <> 14%nat /\
  get_cfg_ID rx_silent Big None bus0 =
    (Raise StructError,
     mkBus 0 0 0 0 14,
     enter_seq ++ tblptr_seq 0x300000 ++
     List.concat (repeat (encoded [x09] [x00] ++ [Read 1]) 14) ++
     exit_seq)
  /\ session (mkBus 0 0 0 0 14) = Idle.
Proof.
  split; [lia |]. split; [cbn; lia |].
  apply (get_cfg_ID_wrong_size rx_silent Big None bus0); [lia | cbn; lia].
Defined.

(** [get_dev_ID] on a target that answers one byte per read, in terms of
    what [send_cmd] sends. *)
Lemma get_dev_ID_run :
  forall (rx : nat -> bytes) (address : option Z) (s : Bus),
    let a := match address with None => 0x3FFFFE | Some a => a end in
    0 <= a < 2 ^ 24 ->
    (forall k, List.length (rx k) = 1%nat) ->
    let b1 := hd x00 (rx (nrx s)) in
    let b2 := hd x00 (rx (S (nrx s))) in
    get_dev_ID rx address s =
      (Ret tt,
       mkBus 0 0 0 0 (nrx s + 2),
       enter_seq ++ tblptr_seq a ++
       List.concat (repeat (encoded [x09] [x00] ++ [Read 1]) 2) ++
       exit_seq ++
       [Print ("DEV_ID 1 : " ++ hex 2 (Z_of_byte b1));
        Print ("DEV_ID 2 : " ++ hex 2 (Z_of_byte b2))]).
Proof.
  intros rx address s a Ha Hone b1 b2.
  assert (Hdata : List.concat (map rx (seq (nrx s) 2)) =
                  map (fun i => hd x00 (rx i)) (seq (nrx s) 2))
    by (apply concat_singletons; exact Hone).
  cbn [seq map] in Hdata. fold b1 b2 in Hdata.
  unfold get_dev_ID. fold a.
  set (xs := range 0 2 1).
  assert (Hxs : List.length xs = 2%nat) by reflexivity.
  eapply with_result.
  - run_bind; [apply enter_run |].
    run_bind; [apply set_tblptr_run; exact Ha |].
    run_bind; [apply table_read_loop |].
    run_bind; [apply exit_run |].
    rewrite Hxs. cbn [nrx]. cbn [seq map] . rewrite Hdata.
    reflexivity.
  - reflexivity.
  - rewrite ?Hxs. reflexivity.
  - rewrite Hxs. rewrite <- !app_assoc. reflexivity.
Qed.

(** *** What the driver never sends *)

Lemma emits_silent {A} (P : Event -> Prop) (m : M A) :
  (forall s, trace (m s) = []) -> emits P m.
Proof.
  intros Hm s r s' t H. specialize (Hm s). rewrite H in Hm.
  cbn in Hm. subst t. constructor.
Qed.

Lemma emits_one {A} (P : Event -> Prop) (m : M A) (e : Event) :
  (forall s, trace (m s) = [e]) -> P e -> emits P m.
Proof.
  intros Hm He s r s' t H. specialize (Hm s). rewrite H in Hm.
  cbn in Hm. subst t. constructor; [exact He | constructor].
Qed.

Lemma emits_bind {A B} (P : Event -> Prop) (m : M A) (f : A -> M B) :
  emits P m -> (forall a, emits P (f a)) -> emits P (bind m f).
Proof.
  intros Hm Hf s r s' t. unfold bind.
  destruct (m s) as [[r1 s1] t1] eqn:E1.
  pose proof (Hm _ _ _ _ E1) as Ht1.
  destruct r1 as [a | e |].
  - destruct (f a s1) as [[r2 s2] t2] eqn:E2.
    intros H. inversion H; subst.
    apply Forall_app. split; [exact Ht1 | exact (Hf a _ _ _ _ E2)].
  - intros H. inversion H; subst. exact Ht1.
  - intros H. inversion H; subst. exact Ht1.
Qed.

Lemma emits_for {X S} (P : Event -> Prop) (body : X -> S -> M S) :
  (forall x acc, emits P (body x acc)) ->
  forall xs acc, emits P (for_ xs acc body).
Proof.
  intros Hbody xs. induction xs as [| x xs IH]; intros acc; cbn [for_].
  - apply emits_silent. reflexivity.
  - apply emits_bind; [apply Hbody | exact IH].
Qed.

Lemma emits_lift {A} (P : Event -> Prop) (r : exn + A) : emits P (lift r).
Proof. apply emits_silent. intros s. destruct r; reflexivity. Qed.

Lemma emits_send_cmd (P : Event -> Prop) (cmd payload : bytes) :
  P (WriteBits cmd 4) ->
  P (Write (slice payload 1 2)) -> P (Write (slice payload 0 1)) ->
  emits P (send_cmd cmd payload).
Proof.
  intros Hc H1 H0 s r s' t H. rewrite send_cmd_run in H.
  inversion H; subst. unfold encoded, send_cmd, bind, trace,
    RawWire.write_bits, RawWire.write.
  destruct (len payload mod 2 =? 0); cbn; repeat constructor; assumption.
Qed.

Lemma framed_slice (p : bytes) (lo : Z) :
  0 <= lo -> framed (Write (slice p lo (lo + 1))).
Proof.
  intros Hlo. unfold framed, slice.
  etransitivity; [apply firstn_le_length | lia].
Qed.

(** Decompose an action into its transport requests; [side] settles the
    property of each single request. *)
Ltac emits_step side :=
  cbv beta iota zeta;
  lazymatch goal with
  | |- emits _ (bind _ _) => apply emits_bind; [| intros ?]
  | |- emits _ (ret _) => apply emits_silent; reflexivity
  | |- emits _ (raise _) => apply emits_silent; reflexivity
  | |- emits _ hang => apply emits_silent; reflexivity
  | |- emits _ (lift _) => apply emits_lift
  | |- emits _ (send_cmd _ _) => apply emits_send_cmd; side
  | |- emits _ (RawWire.set_sda ?v) =>
      apply (emits_one _ _ (SetSda v)); [reflexivity | side]
  | |- emits _ (RawWire.set_clk ?v) =>
      apply (emits_one _ _ (SetClk v)); [reflexivity | side]
  | |- emits _ (RawWire.set_aux ?i ?v) =>
      apply (emits_one _ _ (SetAux i v)); [reflexivity | side]
  | |- emits _ (RawWire.clocks ?n) =>
      apply (emits_one _ _ (Clocks n)); [reflexivity | side]
  | |- emits _ (RawWire.read _ ?n) =>
      apply (emits_one _ _ (Read n)); [reflexivity | side]
  | |- emits _ (sleep ?n) =>
      apply (emits_one _ _ (Sleep n)); [reflexivity | side]
  | |- emits _ (print ?l) =>
      apply (emits_one _ _ (Print l)); [reflexivity | side]
  | |- emits _ (for_ _ _ _) => apply emits_for; intros ? ?
  | |- emits _ (for_each _ _) => apply emits_for; intros ? ?
  | |- emits _ (if ?b then _ else _) => destruct b
  | |- emits _ (match ?x with Some _ => _ | None => _ end) => destruct x
  | |- emits _ _enter_prog => unfold _enter_prog
  | |- emits _ _exit_prog => unfold _exit_prog
  | |- emits _ (nop _) => unfold nop
  | |- emits _ (set_tblptr _) => unfold set_tblptr
  | |- emits _ (set_eeaddr _) => unfold set_eeaddr
  | |- emits _ (poll_wr _) => unfold poll_wr
  | |- emits _ (report _ _ _) => unfold report
  end.

Ltac framed_side :=
  first [ exact I
        | split; reflexivity
        | reflexivity
        | apply (framed_slice _ 0); lia
        | apply (framed_slice _ 1); lia ].

Ltac no_read_side := unfold no_read; intros ?; discriminate.

Lemma wait_wr_framed rx fuel : emits framed (wait_wr rx fuel).
Proof.
  induction fuel as [| k IH]; cbn [wait_wr].
  - apply emits_silent. reflexivity.
  - apply emits_bind; [repeat emits_step framed_side |].
    intros busy. destruct (busy =? 0); [apply emits_silent; reflexivity | exact IH].
Qed.

Ltac framed_step :=
  lazymatch goal with
  | |- emits _ (wait_wr _ _) => apply wait_wr_framed
  | _ => emits_step framed_side
  end.

(** X17. Whatever the arguments and however the call ends, every
    transport request of a public operation is framed the same way: an
    opcode is one byte sent as a 4-bit field, a payload write carries at
    most one byte, and a read asks for exactly one byte. *)
Theorem call_keeps_framing :
  forall (rx : nat -> bytes) (host : byteorder) (fuel : nat) (c : Call) (s : Bus),
    Forall framed (trace (call rx host fuel c s)).
Proof.
  intros rx host fuel c s.
  assert (H : emits framed (call rx host fuel c)).
  { destruct c; unfold call, read, write, erase_panel, get_cfg_ID,
      get_loc_ID, get_dev_ID; repeat framed_step. }
  destruct (call rx host fuel c s) as [[r s'] t] eqn:E.
  exact (H _ _ _ _ E).
Qed.

(** X18. A program-memory write without [erase] and a panel erase never
    read from the target, whatever the arguments and however the call
    ends: neither of them polls for completion. *)
Theorem program_write_and_erase_never_read :
  forall (rx : nat -> bytes) (fuel : nat) (addr : Z) (data panel : bytes)
         (s : Bus),
    Forall no_read (trace (write rx fuel addr data false false s)) /\
    Forall no_read (trace (erase_panel panel s)).
Proof.
  intros rx fuel addr data panel s. split.
  - assert (H : emits no_read (write rx fuel addr data false false)).
    { unfold write. repeat emits_step no_read_side. }
    destruct (write rx fuel addr data false false s) as [[r s'] t] eqn:E.
    exact (H _ _ _ _ E).
  - assert (H : emits no_read (erase_panel panel)).
    { unfold erase_panel. repeat emits_step no_read_side. }
    destruct (erase_panel panel s) as [[r s'] t] eqn:E.
    exact (H _ _ _ _ E).
Qed.

(** *** More edge cases and compositions *)

(** X19. [erase_panel] does not check the length of the panel
    identifier: bytes after the first two are ignored, and with a
    one-byte identifier the second table write goes out without any
    payload byte. *)
Theorem erase_panel_uses_two_bytes :
  forall (p0 p1 : byte) (rest : bytes) (s : Bus),
    erase_panel (p0 :: p1 :: rest) s = erase_panel [p0; p1] s
    /\ erase_panel [p0] s =
        (Ret tt, released s,
         enter_seq ++
         tblptr_seq 0x3c0005 ++ [WriteBits [x0c] 4; Write [p0]; Write [p0]] ++
         tblptr_seq 0x3c0004 ++ [WriteBits [x0c] 4; Write []; Write []] ++
         core x00 x00 ++ core x00 x00 ++
         exit_seq).
Proof. intros p0 p1 rest s. split; reflexivity. Qed.

Lemma bind_hang {A B} (m : M A) (f : A -> M B) s s1 t1 :
  m s = (Hang, s1, t1) -> bind m f s = (Hang, s1, t1).
Proof. intros Hm. unfold bind. rewrite Hm. reflexivity. Qed.

(** X20. An EEPROM write to a target that stays busy never gets past
    its first byte: if the next [fuel] answers all have bit 1 set, then
    after [fuel] polls the call is still in the poll loop of byte 0, the
    exit sequence has not run and the session is in [Programming]. *)
Theorem write_eeprom_blocks_on_busy_target :
  forall (rx : nat -> bytes) (fuel : nat) (addr : Z) (data : bytes)
         (erase : bool) (s : Bus),
    0 <= addr < 2 ^ 16 ->
    2 <= len data -> Z.even (len data) = true ->
    (forall i, (i < fuel)%nat -> busy (rx (nrx s + i)%nat) = true) ->
    write rx fuel addr data true erase s =
      (Hang,
       mkBus 0 0 1 1 (nrx s + fuel),
       enter_seq ++ core x9e xa6 ++ core x9c xa6 ++ eeaddr_seq addr ++
       core x84 xa6 ++
       encoded [x0e] (slice data 0 1) ++ core x84 xa6 ++
       core x00 x00 ++ core x00 x00 ++
       List.concat (repeat poll_seq fuel))
    /\ session (mkBus 0 0 1 1 (nrx s + fuel)) = Programming.
Proof.
  intros rx fuel addr data erase s Haddr Hlen Hev Hbusy.
  split; [| reflexivity].
  unfold write. cbv zeta.
  destruct (Z.ltb_spec (len data) 2) as [? | _]; [lia |].
  rewrite Zmod_even, Hev. change (0 =? 1) with false. cbv iota.
  rewrite range_from_0.
  replace (Z.to_nat (len data)) with (S (Z.to_nat (len data) - 1)) by lia.
  cbn [seq map]. unfold for_each. cbn [for_].
  eapply with_result.
  - run_bind; [apply enter_run |].
    apply bind_hang.
    run_bind; [apply send_cmd_run |].
    run_bind; [apply send_cmd_run |].
    run_bind; [apply set_eeaddr_run; exact Haddr |].
    run_bind; [apply send_cmd_run |].
    apply bind_hang.
    run_bind; [apply send_cmd_run |].
    run_bind; [apply send_cmd_run |].
    run_bind; [apply nop_2_run |].
    apply wait_wr_busy_run. exact Hbusy.
  - reflexivity.
  - reflexivity.
  - rewrite <- ?app_assoc. reflexivity.
Qed.

Lemma write_eeprom_blocks_on_busy_target_witness :
  (0 <= 0x10 < 2 ^ 16) /\ (2 <= len [x41; x42]) /\
  Z.even (len [x41; x42]) = true /\
  (forall i, (i < 3)%nat -> busy (rx_busy (nrx bus0 + i)%nat) = true) /\
  write rx_busy 3 0x10 [x41; x42] true false bus0 =
    (Hang,
     mkBus 0 0 1 1 3,
     enter_seq ++ core x9e xa6 ++ core x9c xa6 ++ eeaddr_seq 0x10 ++
     core x84 xa6 ++
     encoded [x0e] [x41] ++ core x84 xa6 ++
     core x00 x00 ++ core x00 x00 ++
     List.concat (repeat poll_seq 3))
  /\ session (mkBus 0 0 1 1 3) = Programming.
Proof.
  split; [lia |]. split; [cbn; lia |]. split; [reflexivity |].
  split; [intros i Hi; reflexivity |].
  apply (write_eeprom_blocks_on_busy_target rx_busy 3 0x10 [x41; x42] false bus0);
    [lia | cbn; lia | reflexivity | intros i Hi; reflexivity].
Defined.

Lemma read_table_run (rx : nat -> bytes) (a n : Z) (s : Bus) :
  0 <= a < 2 ^ 24 -> n <> 0 ->
  read rx a n false s =
    (Ret (List.concat (map rx (seq (nrx s) (List.length (range 0 n 1))))),
     mkBus 0 0 0 0 (nrx s + List.length (range 0 n 1)),
     enter_seq ++ tblptr_seq a ++
     List.concat (repeat (encoded [x09] [x00] ++ [Read 1])
                         (List.length (range 0 n 1))) ++
     exit_seq).
Proof.
  intros Ha Hn. unfold read.
  destruct (Z.eqb_spec n 0) as [E | _]; [contradiction |].
  eapply with_result.
  - run_bind; [apply enter_run |].
    run_bind.
    + run_bind; [apply set_tblptr_run; exact Ha | apply table_read_loop].
    + run_bind; [apply exit_run | reflexivity].
  - reflexivity.
  - reflexivity.
  - rewrite app_nil_r. reflexivity.
Qed.

(** X21. [get_cfg_ID] and [get_dev_ID] talk to the target exactly as
    [read] does on program memory, for 14 and for 2 bytes at their
    address: the trace of the identifier call is the trace of that read,
    followed by printing only. *)
Theorem identifier_reads_are_table_reads :
  forall (rx : nat -> bytes) (host : byteorder) (address : option Z) (s : Bus),
    (match address with Some a => 0 <= a < 2 ^ 24 | None => True end) ->
    let cfg := match address with None => 0x300000 | Some a => a end in
    let dev := match address with None => 0x3FFFFE | Some a => a end in
    (exists out, Forall is_print out /\
       trace (get_cfg_ID rx host address s) =
         trace (read rx cfg 14 false s) ++ out) /\
    (exists out, Forall is_print out /\
       trace (get_dev_ID rx address s) =
         trace (read rx dev 2 false s) ++ out).
Proof.
  intros rx host address s Haddr cfg dev.
  assert (Hcfg : 0 <= cfg < 2 ^ 24) by (unfold cfg; destruct address; lia).
  assert (Hdev : 0 <= dev < 2 ^ 24) by (unfold dev; destruct address; lia).
  split.
  - rewrite (read_table_run rx cfg 14 s Hcfg) by lia.
    unfold get_cfg_ID. fold cfg.
    set (data := List.concat (map rx (seq (nrx s) (List.length (range 0 14 1))))).
    set (srel := mkBus 0 0 0 0 (nrx s + List.length (range 0 14 1))).
    destruct ((CONFIG <- lift (unpack_H host 7 data) ;; report "CONFIG" 4 CONFIG)
                srel) as [[r s'] out] eqn:E.
    assert (Hout : Forall is_print out).
    { assert (Haft : after (CONFIG <- lift (unpack_H host 7 data) ;;
                            report "CONFIG" 4 CONFIG))
        by (apply after_bind; [apply after_unpack | intros; apply after_report]).
      exact (proj1 (proj2 (Haft _ _ _ _ E))). }
    exists out. split; [exact Hout |].
    erewrite with_result;
      [ | run_bind; [apply enter_run |];
          run_bind; [apply set_tblptr_run; exact Hcfg |];
          run_bind; [apply table_read_loop |];
          run_bind; [apply exit_run | exact E]
        | reflexivity .. ].
    unfold trace. cbn [snd]. rewrite <- !app_assoc. reflexivity.
  - rewrite (read_table_run rx dev 2 s Hdev) by lia.
    unfold get_dev_ID. fold dev.
    set (data := List.concat (map rx (seq (nrx s) (List.length (range 0 2 1))))).
    set (srel := mkBus 0 0 0 0 (nrx s + List.length (range 0 2 1))).
    destruct (report "DEV_ID " 2 (map Z_of_byte data) srel)
      as [[r s'] out] eqn:E.
    assert (Hout : Forall is_print out)
      by exact (proj1 (proj2 (after_report _ _ _ _ _ _ _ E))).
    exists out. split; [exact Hout |].
    erewrite with_result;
      [ | run_bind; [apply enter_run |];
          run_bind; [apply set_tblptr_run; exact Hdev |];
          run_bind; [apply table_read_loop |];
          run_bind; [apply exit_run | exact E]
        | reflexivity .. ].
    unfold trace. cbn [snd]. rewrite <- !app_assoc. reflexivity.
Qed.

Lemma identifier_reads_are_table_reads_witness :
  (0 <= 0x1000 < 2 ^ 24) /\
  (exists out, Forall is_print out /\
     trace (get_cfg_ID ex_rx Little (Some 0x1000) bus0) =
       trace (read ex_rx 0x1000 14 false bus0) ++ out) /\
  (exists out, Forall is_print out /\
     trace (get_dev_ID ex_rx (Some 0x1000) bus0) =
       trace (read ex_rx 0x1000 2 false bus0) ++ out).
Proof.
  split; [lia |].
  apply (identifier_reads_are_table_reads ex_rx Little (Some 0x1000) bus0).
  lia.
Defined.

(** ** The sequences as events on the wire *)

Lemma skipn_two (data : bytes) (d : nat) :
  (d + 2 <= List.length data)%nat ->
  exists a b r,
    skipn d data = a :: b :: r /\
    List.length r = (List.length data - d - 2)%nat.
Proof.
  intros Hd. pose proof (length_skipn d data) as Hl.
  destruct (skipn d data) as [| a [| b r]]; cbn [List.length] in Hl; try lia.
  exists a, b, r. split; [reflexivity | lia].
Qed.

Lemma chunk_on_wire (op : byte) (data : bytes) (d : Z) :
  0 <= d -> d + 2 <= len data ->
  encoded [op] (reversed (slice data d (d + 2))) =
    [WriteBits [op] 4;
     Write (slice data d (d + 1)); Write (slice data (d + 1) (d + 2))].
Proof.
  intros Hd Hlen. unfold len in Hlen.
  destruct (skipn_two data (Z.to_nat d)) as (a & b & r & Hs & _); [lia |].
  unfold slice, reversed.
  replace (Z.to_nat (d + 2) - Z.to_nat d)%nat with 2%nat by lia.
  replace (Z.to_nat (d + 1) - Z.to_nat d)%nat with 1%nat by lia.
  replace (Z.to_nat (d + 2) - Z.to_nat (d + 1))%nat with 1%nat by lia.
  replace (Z.to_nat (d + 1)) with (1 + Z.to_nat d)%nat by lia.
  rewrite <- skipn_skipn, Hs. reflexivity.
Qed.

Lemma last_chunk_on_wire (op : byte) (data : bytes) :
  2 <= len data ->
  encoded [op] (reversed (slice_from data (len data - 2))) =
    [WriteBits [op] 4;
     Write (slice data (len data - 2) (len data - 1));
     Write (slice data (len data - 1) (len data))].
Proof.
  intros Hlen. unfold len in *.
  destruct (skipn_two data (Z.to_nat (Z.of_nat (List.length data) - 2)))
    as (a & b & r & Hs & Hr); [lia |].
  assert (r = []) by (destruct r; [reflexivity | cbn in Hr; lia]). subst r.
  unfold slice, slice_from, reversed.
  replace (Z.to_nat (Z.of_nat (List.length data) - 1) -
           Z.to_nat (Z.of_nat (List.length data) - 2))%nat with 1%nat by lia.
  replace (Z.to_nat (Z.of_nat (List.length data)) -
           Z.to_nat (Z.of_nat (List.length data) - 1))%nat with 1%nat by lia.
  replace (Z.to_nat (Z.of_nat (List.length data) - 1))
    with (1 + Z.to_nat (Z.of_nat (List.length data) - 2))%nat by lia.
  rewrite <- skipn_skipn, Hs. reflexivity.
Qed.

Lemma encoded_even (cmd payload : bytes) :
  Z.even (len payload) = true ->
  encoded cmd payload =
    [WriteBits cmd 4; Write (slice payload 1 2); Write (slice payload 0 1)].
Proof.
  intros Hev.
  unfold encoded, send_cmd, bind, trace, RawWire.write_bits, RawWire.write.
  rewrite Zmod_even, Hev. reflexivity.
Qed.

Lemma pm_payload_wire (data : bytes) :
  2 <= len data -> Z.even (len data) = true ->
  pm_payload data = wire_pm_payload data.
Proof.
  intros Hlen Hev. unfold pm_payload, wire_pm_payload.
  destruct (Z.eqb_spec (len data) 2) as [E | NE].
  - apply encoded_even. exact Hev.
  - rewrite last_chunk_on_wire by exact Hlen. f_equal.
    rewrite !flat_map_concat_map. f_equal.
    apply map_ext_in. intros d Hin.
    unfold range in Hin. apply in_map_iff in Hin.
    destruct Hin as (i & <- & Hi). apply in_seq in Hi.
    apply chunk_on_wire; [lia |].
    assert (Hdiv : 2 * ((len data - 2 - 0 + 2 - 1) / 2) <= len data - 2 - 0 + 2 - 1)
      by (apply Z.mul_div_le; lia).
    lia.
Qed.

(** C7, as stated, fails: the claim is for every [addr], but for an
    address beyond 24 bits [read] raises [OverflowError] right after the
    entry sequence: the table pointer is not set, no table read is issued,
    programming mode is not left and nothing is returned. *)
Lemma read_program_memory_beyond_24_bits :
  read ex_rx 0x1000000 4 false bus0 =
    (Raise OverflowError, mkBus 0 0 1 1 0,
     [SetSda 0; SetClk 0; SetAux 1 1; SetAux 0 1])
  /\ session (mkBus 0 0 1 1 0) = Programming.
Proof. split; reflexivity. Qed.

(** C7, amended. For every [addr] with [0 <= addr < 2^24] and every
    [length >= 1], [read(addr, length)] on program memory puts exactly
    this on the wire: the entry sequence; once, the six core instructions
    that load TBLPTRU, TBLPTRH and TBLPTRL with the bytes of [addr];
    [length] times the opcode 0x09 with the one-byte payload 00 followed
    by a one-byte read; the exit sequence.  It returns the answers
    concatenated in the order they were read, which is [length] bytes when
    every answer is one byte. *)
Theorem read_program_memory :
  forall (rx : nat -> bytes) (addr length : Z) (s : Bus),
    0 <= addr < 2 ^ 24 -> 1 <= length ->
    let n := Z.to_nat length in
    let data := List.concat (map rx (seq (nrx s) n)) in
    read rx addr length false s =
      (Ret data,
       mkBus 0 0 0 0 (nrx s + n),
       [SetSda 0; SetClk 0; SetAux 1 1; SetAux 0 1] ++
       [WriteBits [x00] 4; Write [byte_of_Z (Z.shiftr addr 16)]; Write [x0e];
        WriteBits [x00] 4; Write [xf8]; Write [x6e];
        WriteBits [x00] 4; Write [byte_of_Z (Z.shiftr addr 8)]; Write [x0e];
        WriteBits [x00] 4; Write [xf7]; Write [x6e];
        WriteBits [x00] 4; Write [byte_of_Z addr]; Write [x0e];
        WriteBits [x00] 4; Write [xf6]; Write [x6e]] ++
       List.concat (repeat [WriteBits [x09] 4; Write [x00]; Read 1] n) ++
       [SetSda 0; SetClk 0; SetAux 0 0; SetAux 1 0])
    /\ ((forall k, List.length (rx k) = 1%nat) -> len data = length).
Proof.
  intros rx addr length s Haddr Hlen n data.
  destruct (read_program_memory_run rx addr length s Haddr Hlen)
    as (Hrun & _ & Hdata).
  split; [| exact Hdata].
  fold n in Hrun. rewrite Hrun. reflexivity.
Qed.

Lemma read_program_memory_witness :
  (0 <= 0x800 < 2 ^ 24) /\ (1 <= 4) /\
  read ex_rx 0x800 4 false bus0 =
    (Ret [x00; x01; x02; x03],
     mkBus 0 0 0 0 4,
     [SetSda 0; SetClk 0; SetAux 1 1; SetAux 0 1] ++
     [WriteBits [x00] 4; Write [x00]; Write [x0e];
      WriteBits [x00] 4; Write [xf8]; Write [x6e];
      WriteBits [x00] 4; Write [x08]; Write [x0e];
      WriteBits [x00] 4; Write [xf7]; Write [x6e];
      WriteBits [x00] 4; Write [x00]; Write [x0e];
      WriteBits [x00] 4; Write [xf6]; Write [x6e]] ++
     [WriteBits [x09] 4; Write [x00]; Read 1;
      WriteBits [x09] 4; Write [x00]; Read 1;
      WriteBits [x09] 4; Write [x00]; Read 1;
      WriteBits [x09] 4; Write [x00]; Read 1] ++
     [SetSda 0; SetClk 0; SetAux 0 0; SetAux 1 0])
  /\ len [x00; x01; x02; x03] = 4.
Proof.
  split; [lia |]. split; [lia |].
  destruct (read_program_memory ex_rx 0x800 4 bus0) as [Hrun Hlen];
    [lia | lia |].
  split; [exact Hrun |].
  apply Hlen. intros k. reflexivity.
Defined.

(** C8. For every 2-byte panel identifier [p0 p1], [erase_panel] puts
    exactly this on the wire and nothing more: the entry sequence; the
    six core instructions that set the table pointer to 3C 00 05; one
    table write 0x0C carrying [p0] twice; the six core instructions that
    set the table pointer to 3C 00 04; one table write 0x0C carrying [p1]
    twice; two no-op core instructions; the exit sequence.  Nothing is
    read back: there is no completion poll. *)
Theorem erase_panel_sequence : forall (p0 p1 : byte) (s : Bus),
  erase_panel [p0; p1] s =
    (Ret tt, mkBus 0 0 0 0 (nrx s),
     [SetSda 0; SetClk 0; SetAux 1 1; SetAux 0 1;
      WriteBits [x00] 4; Write [x3c]; Write [x0e];
      WriteBits [x00] 4; Write [xf8]; Write [x6e];
      WriteBits [x00] 4; Write [x00]; Write [x0e];
      WriteBits [x00] 4; Write [xf7]; Write [x6e];
      WriteBits [x00] 4; Write [x05]; Write [x0e];
      WriteBits [x00] 4; Write [xf6]; Write [x6e];
      WriteBits [x0c] 4; Write [p0]; Write [p0];
      WriteBits [x00] 4; Write [x3c]; Write [x0e];
      WriteBits [x00] 4; Write [xf8]; Write [x6e];
      WriteBits [x00] 4; Write [x00]; Write [x0e];
      WriteBits [x00] 4; Write [xf7]; Write [x6e];
      WriteBits [x00] 4; Write [x04]; Write [x0e];
      WriteBits [x00] 4; Write [xf6]; Write [x6e];
      WriteBits [x0c] 4; Write [p1]; Write [p1];
      WriteBits [x00] 4; Write [x00]; Write [x00];
      WriteBits [x00] 4; Write [x00]; Write [x00];
      SetSda 0; SetClk 0; SetAux 0 0; SetAux 1 0])
  /\ existsb is_read (trace (erase_panel [p0; p1] s)) = false.
Proof.
  intros p0 p1 s.
  destruct (erase_panel_run p0 p1 s) as (Hrun & Hnoread & _).
  split; [| exact Hnoread].
  rewrite Hrun. reflexivity.
Qed.

(** C4, amended. For [length >= 1] and EEPROM addresses
    [addr .. addr+length-1] that fit 16 bits, [read(addr, length,
    eeprom=True)] clears EEPGD (9E A6) and CFGS (9C A6) once and then, for
    each offset in order, puts this on the wire: MOVLW high byte of
    [addr+offset], MOVWF EEADRH (6E AA), MOVLW low byte, MOVWF EEADR
    (6E A9); BSF EECON1,RD (80 A6); the two core instructions 50 A8 (MOVF
    EEDATA,W) and 6E F5 (MOVWF TABLAT), in an order this statement leaves
    open; one no-op; one byte read.  The answers are returned in the order
    read. *)
Theorem read_eeprom_sequence :
  forall (rx : nat -> bytes) (addr length : Z) (s : Bus),
    0 <= addr -> addr + length <= 2 ^ 16 -> 1 <= length ->
    let n := Z.to_nat length in
    exists mv1 mv2 : byte * byte,
      Permutation [mv1; mv2] [(x50, xa8); (x6e, xf5)] /\
      read rx addr length true s =
        (Ret (List.concat (map rx (seq (nrx s) n))),
         mkBus 0 0 0 0 (nrx s + n),
         [SetSda 0; SetClk 0; SetAux 1 1; SetAux 0 1] ++
         [WriteBits [x00] 4; Write [xa6]; Write [x9e];
          WriteBits [x00] 4; Write [xa6]; Write [x9c]] ++
         flat_map (fun offset =>
           [WriteBits [x00] 4; Write [byte_of_Z (Z.shiftr (addr + offset) 8)]; Write [x0e];
            WriteBits [x00] 4; Write [xaa]; Write [x6e];
            WriteBits [x00] 4; Write [byte_of_Z (addr + offset)]; Write [x0e];
            WriteBits [x00] 4; Write [xa9]; Write [x6e];
            WriteBits [x00] 4; Write [xa6]; Write [x80];
            WriteBits [x00] 4; Write [snd mv1]; Write [fst mv1];
            WriteBits [x00] 4; Write [snd mv2]; Write [fst mv2];
            WriteBits [x00] 4; Write [x00]; Write [x00];
            Read 1]) (map Z.of_nat (seq 0 n)) ++
         [SetSda 0; SetClk 0; SetAux 0 0; SetAux 1 0]).
Proof.
  intros rx addr length s Hlo Hhi Hlen n.
  exists (x6e, xf5), (x50, xa8). split; [apply perm_swap |].
  pose proof (read_eeprom_run rx addr length s Hlo Hhi Hlen) as Hrun.
  fold n in Hrun. rewrite Hrun. reflexivity.
Qed.

Lemma read_eeprom_sequence_witness :
  (0 <= 0xfffe) /\ (0xfffe + 2 <= 2 ^ 16) /\ (1 <= 2) /\
  exists mv1 mv2 : byte * byte,
    Permutation [mv1; mv2] [(x50, xa8); (x6e, xf5)] /\
    read ex_rx 0xfffe 2 true bus0 =
      (Ret [x00; x01],
       mkBus 0 0 0 0 2,
       [SetSda 0; SetClk 0; SetAux 1 1; SetAux 0 1] ++
       [WriteBits [x00] 4; Write [xa6]; Write [x9e];
        WriteBits [x00] 4; Write [xa6]; Write [x9c]] ++
       [WriteBits [x00] 4; Write [xff]; Write [x0e];
        WriteBits [x00] 4; Write [xaa]; Write [x6e];
        WriteBits [x00] 4; Write [xfe]; Write [x0e];
        WriteBits [x00] 4; Write [xa9]; Write [x6e];
        WriteBits [x00] 4; Write [xa6]; Write [x80];
        WriteBits [x00] 4; Write [snd mv1]; Write [fst mv1];
        WriteBits [x00] 4; Write [snd mv2]; Write [fst mv2];
        WriteBits [x00] 4; Write [x00]; Write [x00];
        Read 1;
        WriteBits [x00] 4; Write [xff]; Write [x0e];
        WriteBits [x00] 4; Write [xaa]; Write [x6e];
        WriteBits [x00] 4; Write [xff]; Write [x0e];
        WriteBits [x00] 4; Write [xa9]; Write [x6e];
        WriteBits [x00] 4; Write [xa6]; Write [x80];
        WriteBits [x00] 4; Write [snd mv1]; Write [fst mv1];
        WriteBits [x00] 4; Write [snd mv2]; Write [fst mv2];
        WriteBits [x00] 4; Write [x00]; Write [x00];
        Read 1] ++
       [SetSda 0; SetClk 0; SetAux 0 0; SetAux 1 0]).
Proof.
  split; [lia |]. split; [lia |]. split; [lia |].
  apply (read_eeprom_sequence ex_rx 0xfffe 2 bus0); lia.
Defined.



(** X11. The EEPROM path of [write], for a 16-bit address, data of even
    length at least 2 and a target that is not busy at any poll, puts this
    on the wire: the entry sequence; BCF EEPGD (9E A6), BCF CFGS (9C A6);
    once, the four core instructions that load EEADRH and EEADR with the
    bytes of [addr]; BSF WREN (84 A6); then for every data byte in turn
    the byte itself with opcode 0x0E, BSF WREN, two no-ops and one poll
    (MOVF EECON1,W; MOVWF TABLAT; no-op; readout 0x02; one byte read);
    then clock low, two no-ops, BCF WREN (94 A6) and the exit sequence.
    The address is not loaded again between bytes. *)
Theorem write_eeprom_sequence :
  forall (rx : nat -> bytes) (fuel : nat) (addr : Z) (data : bytes)
         (erase : bool) (s : Bus),
    0 <= addr < 2 ^ 16 ->
    2 <= len data -> Z.even (len data) = true ->
    (1 <= fuel)%nat ->
    (forall i, (i < List.length data)%nat -> busy (rx (nrx s + i)%nat) = false) ->
    write rx fuel addr data true erase s =
      (Ret tt,
       mkBus 0 0 0 0 (nrx s + List.length data),
       [SetSda 0; SetClk 0; SetAux 1 1; SetAux 0 1] ++
       [WriteBits [x00] 4; Write [xa6]; Write [x9e];
        WriteBits [x00] 4; Write [xa6]; Write [x9c];
        WriteBits [x00] 4; Write [byte_of_Z (Z.shiftr addr 8)]; Write [x0e];
        WriteBits [x00] 4; Write [xaa]; Write [x6e];
        WriteBits [x00] 4; Write [byte_of_Z addr]; Write [x0e];
        WriteBits [x00] 4; Write [xa9]; Write [x6e];
        WriteBits [x00] 4; Write [xa6]; Write [x84]] ++
       flat_map (fun b =>
         [WriteBits [x0e] 4; Write [b];
          WriteBits [x00] 4; Write [xa6]; Write [x84];
          WriteBits [x00] 4; Write [x00]; Write [x00];
          WriteBits [x00] 4; Write [x00]; Write [x00];
          WriteBits [x00] 4; Write [xa6]; Write [x50];
          WriteBits [x00] 4; Write [xf5]; Write [x6e];
          WriteBits [x00] 4; Write [x00]; Write [x00];
          WriteBits [x02] 4; Write [x00];
          Read 1]) data ++
       [SetClk 0;
        WriteBits [x00] 4; Write [x00]; Write [x00];
        WriteBits [x00] 4; Write [x00]; Write [x00];
        WriteBits [x00] 4; Write [xa6]; Write [x94]] ++
       [SetSda 0; SetClk 0; SetAux 0 0; SetAux 1 0]).
Proof.
  intros rx fuel addr data erase s Haddr Hlen Hev Hfuel Hready.
  rewrite (write_eeprom_run rx fuel addr data erase s) by assumption.
  reflexivity.
Qed.

Lemma write_eeprom_sequence_witness :
  (0 <= 0x10 < 2 ^ 16) /\ (2 <= len [x41; x42]) /\
  Z.even (len [x41; x42]) = true /\ (1 <= 1)%nat /\
  (forall i, (i < List.length [x41; x42])%nat ->
             busy (rx_ready (nrx bus0 + i)%nat) = false) /\
  write rx_ready 1 0x10 [x41; x42] true true bus0 =
    (Ret tt,
     mkBus 0 0 0 0 2,
     [SetSda 0; SetClk 0; SetAux 1 1; SetAux 0 1] ++
     [WriteBits [x00] 4; Write [xa6]; Write [x9e];
      WriteBits [x00] 4; Write [xa6]; Write [x9c];
      WriteBits [x00] 4; Write [x00]; Write [x0e];
      WriteBits [x00] 4; Write [xaa]; Write [x6e];
      WriteBits [x00] 4; Write [x10]; Write [x0e];
      WriteBits [x00] 4; Write [xa9]; Write [x6e];
      WriteBits [x00] 4; Write [xa6]; Write [x84]] ++
     [WriteBits [x0e] 4; Write [x41];
      WriteBits [x00] 4; Write [xa6]; Write [x84];
      WriteBits [x00] 4; Write [x00]; Write [x00];
      WriteBits [x00] 4; Write [x00]; Write [x00];
      WriteBits [x00] 4; Write [xa6]; Write [x50];
      WriteBits [x00] 4; Write [xf5]; Write [x6e];
      WriteBits [x00] 4; Write [x00]; Write [x00];
      WriteBits [x02] 4; Write [x00];
      Read 1;
      WriteBits [x0e] 4; Write [x42];
      WriteBits [x00] 4; Write [xa6]; Write [x84];
      WriteBits [x00] 4; Write [x00]; Write [x00];
      WriteBits [x00] 4; Write [x00]; Write [x00];
      WriteBits [x00] 4; Write [xa6]; Write [x50];
      WriteBits [x00] 4; Write [xf5]; Write [x6e];
      WriteBits [x00] 4; Write [x00]; Write [x00];
      WriteBits [x02] 4; Write [x00];
      Read 1] ++
     [SetClk 0;
      WriteBits [x00] 4; Write [x00]; Write [x00];
      WriteBits [x00] 4; Write [x00]; Write [x00];
      WriteBits [x00] 4; Write [xa6]; Write [x94]] ++
     [SetSda 0; SetClk 0; SetAux 0 0; SetAux 1 0]).
Proof.
  split; [lia |]. split; [cbn; lia |]. split; [reflexivity |].
  split; [lia |]. split; [intros i Hi; reflexivity |].
  apply (write_eeprom_sequence rx_ready 1 0x10 [x41; x42] true bus0);
    [lia | cbn; lia | reflexivity | lia | intros i Hi; reflexivity].
Defined.

(** X12. The program-memory path of [write], for a 24-bit address and
    data of even length at least 2, puts this on the wire: the entry
    sequence; BSF EEPGD (8E A6), BCF CFGS (9C A6), the six instructions
    that load the table pointer with [addr], BSF WREN (84 A6), BSF FREE
    (88 A6); the payload instructions; data low, three clocks, clock high,
    one second, clock low; two no-ops; BCF WREN (94 A6); the exit
    sequence.  [erase=True] changes one thing only: between set-up and
    payload it inserts BSF FREE (88 A6), BSF WR (82 A6), two no-ops and
    the completion poll (here answered "not busy" at once). *)
Theorem write_program_memory_sequence :
  forall (rx : nat -> bytes) (fuel : nat) (addr : Z) (data : bytes)
         (erase : bool) (s : Bus),
    0 <= addr < 2 ^ 24 ->
    2 <= len data -> Z.even (len data) = true ->
    (erase = true -> (1 <= fuel)%nat /\ busy (rx (nrx s)) = false) ->
    write rx fuel addr data false erase s =
      (Ret tt,
       mkBus 0 0 0 0 (nrx s + (if erase then 1 else 0)),
       [SetSda 0; SetClk 0; SetAux 1 1; SetAux 0 1] ++
       [WriteBits [x00] 4; Write [xa6]; Write [x8e];
        WriteBits [x00] 4; Write [xa6]; Write [x9c];
        WriteBits [x00] 4; Write [byte_of_Z (Z.shiftr addr 16)]; Write [x0e];
        WriteBits [x00] 4; Write [xf8]; Write [x6e];
        WriteBits [x00] 4; Write [byte_of_Z (Z.shiftr addr 8)]; Write [x0e];
        WriteBits [x00] 4; Write [xf7]; Write [x6e];
        WriteBits [x00] 4; Write [byte_of_Z addr]; Write [x0e];
        WriteBits [x00] 4; Write [xf6]; Write [x6e];
        WriteBits [x00] 4; Write [xa6]; Write [x84];
        WriteBits [x00] 4; Write [xa6]; Write [x88]] ++
       (if erase then
          [WriteBits [x00] 4; Write [xa6]; Write [x88];
           WriteBits [x00] 4; Write [xa6]; Write [x82];
           WriteBits [x00] 4; Write [x00]; Write [x00];
           WriteBits [x00] 4; Write [x00]; Write [x00];
           WriteBits [x00] 4; Write [xa6]; Write [x50];
           WriteBits [x00] 4; Write [xf5]; Write [x6e];
           WriteBits [x00] 4; Write [x00]; Write [x00];
           WriteBits [x02] 4; Write [x00];
           Read 1]
        else []) ++
       wire_pm_payload data ++
       [SetSda 0; Clocks 3; SetClk 1; Sleep 1; SetClk 0;
        WriteBits [x00] 4; Write [x00]; Write [x00];
        WriteBits [x00] 4; Write [x00]; Write [x00];
        WriteBits [x00] 4; Write [xa6]; Write [x94]] ++
       [SetSda 0; SetClk 0; SetAux 0 0; SetAux 1 0]).
Proof.
  intros rx fuel addr data erase s Haddr Hlen Hev Herase.
  rewrite (write_program_memory_run rx fuel addr data erase s) by assumption.
  rewrite pm_payload_wire by assumption.
  destruct erase; reflexivity.
Qed.

Lemma write_program_memory_sequence_witness :
  (0 <= 0x800 < 2 ^ 24) /\ (2 <= len [x41; x42; x43; x44]) /\
  Z.even (len [x41; x42; x43; x44]) = true /\
  (1 <= 1)%nat /\ busy (rx_ready (nrx bus0)) = false /\
  write rx_ready 1 0x800 [x41; x42; x43; x44] false true bus0 =
    (Ret tt,
     mkBus 0 0 0 0 1,
     [SetSda 0; SetClk 0; SetAux 1 1; SetAux 0 1] ++
     [WriteBits [x00] 4; Write [xa6]; Write [x8e];
      WriteBits [x00] 4; Write [xa6]; Write [x9c];
      WriteBits [x00] 4; Write [x00]; Write [x0e];
      WriteBits [x00] 4; Write [xf8]; Write [x6e];
      WriteBits [x00] 4; Write [x08]; Write [x0e];
      WriteBits [x00] 4; Write [xf7]; Write [x6e];
      WriteBits [x00] 4; Write [x00]; Write [x0e];
      WriteBits [x00] 4; Write [xf6]; Write [x6e];
      WriteBits [x00] 4; Write [xa6]; Write [x84];
      WriteBits [x00] 4; Write [xa6]; Write [x88]] ++
     [WriteBits [x00] 4; Write [xa6]; Write [x88];
      WriteBits [x00] 4; Write [xa6]; Write [x82];
      WriteBits [x00] 4; Write [x00]; Write [x00];
      WriteBits [x00] 4; Write [x00]; Write [x00];
      WriteBits [x00] 4; Write [xa6]; Write [x50];
      WriteBits [x00] 4; Write [xf5]; Write [x6e];
      WriteBits [x00] 4; Write [x00]; Write [x00];
      WriteBits [x02] 4; Write [x00];
      Read 1] ++
     [WriteBits [x0d] 4; Write [x41]; Write [x42];
      WriteBits [x0f] 4; Write [x43]; Write [x44]] ++
     [SetSda 0; Clocks 3; SetClk 1; Sleep 1; SetClk 0;
      WriteBits [x00] 4; Write [x00]; Write [x00];
      WriteBits [x00] 4; Write [x00]; Write [x00];
      WriteBits [x00] 4; Write [xa6]; Write [x94]] ++
     [SetSda 0; SetClk 0; SetAux 0 0; SetAux 1 0]).
Proof.
  split; [lia |]. split; [cbn; lia |]. split; [reflexivity |].
  split; [lia |]. split; [reflexivity |].
  apply (write_program_memory_sequence rx_ready 1 0x800
           [x41; x42; x43; x44] true bus0);
    [lia | cbn; lia | reflexivity | intros _; split; [lia | reflexivity]].
Defined.



(** X16. [get_dev_ID], at the given address or at 0x3FFFFE when none is
    given, puts this on the wire: the entry sequence; once, the six core
    instructions that load the table pointer with the bytes of the
    address; twice the opcode 0x09 with payload 00 followed by a one-byte
    read; the exit sequence.  Then it prints the two bytes as DEV_ID 1 and
    DEV_ID 2, two hex digits each. *)
Theorem get_dev_ID_reads_two_bytes :
  forall (rx : nat -> bytes) (address : option Z) (s : Bus),
    let a := match address with None => 0x3FFFFE | Some a => a end in
    0 <= a < 2 ^ 24 ->
    (forall k, List.length (rx k) = 1%nat) ->
    let b1 := hd x00 (rx (nrx s)) in
    let b2 := hd x00 (rx (S (nrx s))) in
    get_dev_ID rx address s =
      (Ret tt,
       mkBus 0 0 0 0 (nrx s + 2),
       [SetSda 0; SetClk 0; SetAux 1 1; SetAux 0 1] ++
       [WriteBits [x00] 4; Write [byte_of_Z (Z.shiftr a 16)]; Write [x0e];
        WriteBits [x00] 4; Write [xf8]; Write [x6e];
        WriteBits [x00] 4; Write [byte_of_Z (Z.shiftr a 8)]; Write [x0e];
        WriteBits [x00] 4; Write [xf7]; Write [x6e];
        WriteBits [x00] 4; Write [byte_of_Z a]; Write [x0e];
        WriteBits [x00] 4; Write [xf6]; Write [x6e]] ++
       [WriteBits [x09] 4; Write [x00]; Read 1;
        WriteBits [x09] 4; Write [x00]; Read 1] ++
       [SetSda 0; SetClk 0; SetAux 0 0; SetAux 1 0] ++
       [Print ("DEV_ID 1 : " ++ hex 2 (Z_of_byte b1));
        Print ("DEV_ID 2 : " ++ hex 2 (Z_of_byte b2))]).
Proof.
  intros rx address s a Ha Hone b1 b2.
  rewrite (get_dev_ID_run rx address s Ha Hone).
  reflexivity.
Qed.

Lemma get_dev_ID_reads_two_bytes_witness :
  (0 <= 0x3FFFFE < 2 ^ 24) /\
  (forall k, List.length (ex_rx k) = 1%nat) /\
  get_dev_ID ex_rx None bus0 =
    (Ret tt,
     mkBus 0 0 0 0 2,
     [SetSda 0; SetClk 0; SetAux 1 1; SetAux 0 1] ++
     [WriteBits [x00] 4; Write [x3f]; Write [x0e];
      WriteBits [x00] 4; Write [xf8]; Write [x6e];
      WriteBits [x00] 4; Write [xff]; Write [x0e];
      WriteBits [x00] 4; Write [xf7]; Write [x6e];
      WriteBits [x00] 4; Write [xfe]; Write [x0e];
      WriteBits [x00] 4; Write [xf6]; Write [x6e]] ++
     [WriteBits [x09] 4; Write [x00]; Read 1;
      WriteBits [x09] 4; Write [x00]; Read 1] ++
     [SetSda 0; SetClk 0; SetAux 0 0; SetAux 1 0] ++
     [Print "DEV_ID 1 : 00"; Print "DEV_ID 2 : 01"]).
Proof.
  split; [lia |]. split; [intros k; reflexivity |].
  apply (get_dev_ID_reads_two_bytes ex_rx None bus0);
    [lia | intros k; reflexivity].
Defined.

End PIC18.
